(** * DryRunovateReporter: log mining and PR classification

    A shallow embedding of [DryRunovateReporter.py]: the three log scans
    ([_find_branches_lists], [_extract_general_dry_run_infos],
    [_extract_and_process_autoclosed_dry_run_infos]), the section decoder
    ([_process_branches_lists]) and the classifier ([_determine_pr_status]
    with its two drilldowns), followed by the properties of the
    specification that concern them.

    Conventions.
    - A Python [str] is a [string]; its characters are read as code points
      below 256.  [str | None] is [option string].
    - An open log file is the list of the raw lines that are still to be
      read; [_get_next_line] pops one.
    - A raised exception is a value of [exn]; a function that may raise
      returns an [outcome].
    - The modules [re] and [json] are not part of the program: they are the
      fields of the class [PyLib].  A small regular-expression engine and a
      small JSON reader are given at the end of the definitions, so that
      the program can be run on concrete logs. *)

From Stdlib Require Import String Ascii List Bool Arith ZArith Lia DecimalString.
Import ListNotations.

#[local] Open Scope list_scope.
#[local] Open Scope string_scope.
#[local] Set Warnings "-register-all".

(** ** Python values *)

(** Exceptions, by class, with the message they carry. *)
Inductive exn : Type :=
| LogFileParsingError (message : string)
| ValueError (message : string)
| IndexError (message : string)
| TypeError (message : string)
| JSONDecodeError (message : string).

Inductive outcome (A : Type) : Type :=
| Returns (a : A)
| Raises (e : exn).
Arguments Returns {A} a.
Arguments Raises {A} e.

(** The values [json.loads] builds, and the documents the decoder returns.
    A [dict] keeps its keys in insertion order. *)
Inductive pyvalue : Type :=
| PyNone
| PyBool (b : bool)
| PyInt (z : Z)
| PyFloat (literal : string)
| PyStr (s : string)
| PyList (items : list pyvalue)
| PyDict (entries : list (string * pyvalue)).

Definition type_name (v : pyvalue) : string :=
  match v with
  | PyNone => "NoneType"
  | PyBool _ => "bool"
  | PyInt _ => "int"
  | PyFloat _ => "float"
  | PyStr _ => "str"
  | PyList _ => "list"
  | PyDict _ => "dict"
  end.

Definition py_of_option (o : option string) : pyvalue :=
  match o with
  | Some s => PyStr s
  | None => PyNone
  end.

(** [x or default] on a [str | None]: [None] and the empty string are
    falsy. *)
Definition str_or (o : option string) (default : string) : string :=
  match o with
  | None => default
  | Some "" => default
  | Some s => s
  end.

(** [while line:] and [if not line:] on a [str | None]. *)
Definition truthy (line : option string) : bool :=
  match line with
  | None => false
  | Some "" => false
  | Some _ => true
  end.

(** [str(n)] for an [int]. *)
Definition str_of_int (n : Z) : string := NilZero.string_of_int (Z.to_int n).

(** ** Dictionaries

    [d[k] = v] on an insertion-ordered [dict]: an existing key keeps its
    place and takes the new value, a new key goes to the end. *)
Section Dict.
Context {K V : Type} (eqb : K -> K -> bool).

Fixpoint dict_set (k : K) (v : V) (d : list (K * V)) : list (K * V) :=
  match d with
  | [] => [(k, v)]
  | (k', v') :: d' =>
      if eqb k' k then (k, v) :: d' else (k', v') :: dict_set k v d'
  end.

Definition dict_mem (k : K) (d : list (K * V)) : bool :=
  existsb (fun kv => eqb (fst kv) k) d.

Definition dict_keys (d : list (K * V)) : list K := map fst d.

(** [{**base, **extra}]. *)
Definition dict_merge (base extra : list (K * V)) : list (K * V) :=
  fold_left (fun acc kv => dict_set (fst kv) (snd kv) acc) extra base.
End Dict.

(** Python [==] on [str | None]. *)
Definition key_eqb (a b : option string) : bool :=
  match a, b with
  | Some x, Some y => String.eqb x y
  | None, None => true
  | _, _ => false
  end.

(** ** [str.strip] *)

Definition is_space (c : ascii) : bool :=
  let n := nat_of_ascii c in
  (((9 <=? n) && (n <=? 13)) || ((28 <=? n) && (n <=? 32))
   || (n =? 133) || (n =? 160))%nat.

Fixpoint lstrip (s : string) : string :=
  match s with
  | EmptyString => EmptyString
  | String c s' => if is_space c then lstrip s' else s
  end.

Fixpoint rstrip (s : string) : string :=
  match s with
  | EmptyString => EmptyString
  | String c s' =>
      match rstrip s' with
      | EmptyString => if is_space c then EmptyString else String c EmptyString
      | r => String c r
      end
  end.

Definition strip (s : string) : string := rstrip (lstrip s).

(** ** The modules [re] and [json] *)

(** A match object: the text matched, the numbered groups from 1 on, and
    the named groups.  A group that took no part in the match is [None]. *)
Record Match : Type := {
  whole : string;
  groups : list (option string);
  named : list (string * option string)
}.

Fixpoint assoc {V : Type} (k : string) (d : list (string * V)) : option V :=
  match d with
  | [] => None
  | (k', v) :: d' => if String.eqb k' k then Some v else assoc k d'
  end.

(** [match.group(name)] and [match.group(i)]: the outer [None] is the
    [IndexError] of a group the pattern does not have. *)
Definition group (m : Match) (name : string) : option (option string) :=
  assoc name (named m).

Definition group_index (m : Match) (i : nat) : option (option string) :=
  match i with
  | O => Some (Some (whole m))
  | S j => nth_error (groups m) j
  end.

Definition no_such_group : exn := IndexError "no such group".

(** The functions of [re] and [json] the program calls.  A [pattern] is a
    pattern that compiles; what a pattern text means is left to the
    instance. *)
Class PyLib : Type := {
  pattern : Type;
  re_match : pattern -> string -> option Match;
  re_search : pattern -> string -> option Match;
  re_sub : pattern -> string -> string -> string;
  (** [inl msg] is a [JSONDecodeError] whose [str] is [msg]. *)
  json_loads : string -> string + pyvalue
}.

Definition matches `{PyLib} (p : pattern) (s : string) : bool :=
  match re_match p s with
  | Some _ => true
  | None => false
  end.

(** ** Configuration *)

(** A [Config] object after [__init__]: every pattern has its placeholder
    expanded. *)
Record Config `{PyLib} : Type := {
  branches_info_start_pattern : pattern;
  branches_info_end_pattern : pattern;
  repository_name_pattern : pattern;
  timestamp_pattern : pattern;
  dry_run_info_pattern_general : pattern;
  dry_run_info_pattern_autoclosed : pattern;
  dry_run_info_autoclosed_pr_title_line_number : Z;
  dry_run_info_autoclosed_pr_title_pattern : pattern;
  updated_branch_pattern : pattern;
  created_branch_pattern : pattern;
  commited_files_pattern : pattern
}.

Definition UNCHANGED_PR : string := "UNCHANGED".
Definition UPDATED_PR : string := "UPDATED".
Definition NEW_PR : string := "NEW".
Definition DISCARDED_PR : string := "DISCARDED".
Definition SKIPPED_PR : string := "SKIPPED".
Definition ERROR_PR : string := "ERROR".
Definition PENDING_PR : string := "PENDING".
Definition AUTOMERGED_PR : string := "AUTOMERGED".
Definition UNKNOWN_PR : string := "UNKNOWN".

(** ** Reading the log *)

(** [_get_next_line]: the next line stripped, or [None] at the end of the
    file; the second component is the file afterwards. *)
Definition _get_next_line (file : list string) : option string * list string :=
  match file with
  | [] => (None, [])
  | raw :: rest => (Some (strip raw), rest)
  end.

Definition _extract_repository_name `{PyLib} (line : string) (repository_name_pattern : pattern)
  : outcome (option string) :=
  match re_search repository_name_pattern line with
  | Some m =>
      match group_index m 1 with
      | Some name => Returns name
      | None => Raises no_such_group
      end
  | None => Raises (ValueError "Repository name could not be extracted.")
  end.

(** ** The section scan *)

(** The errors of the specification, as the exceptions the program raises
    for them. *)
Definition EmptyLogError : exn := LogFileParsingError "Log file is empty.".

Definition RepositoryNameError : exn :=
  ValueError "Repository name could not be extracted.".

Definition UnterminatedSectionError (repository_name : string) : exn :=
  LogFileParsingError
    ("Start of the relevant section for repository " ++ repository_name
     ++ " was found but no end was found.").

(** The [else] clause of the outer [while] (lines 429-434) and the
    [return] of line 437. *)
Definition while_else (repository_name : option string)
  (relevant_sections : list (option string * list string))
  : outcome (list (option string * list string)) :=
  match repository_name with
  | None => Returns relevant_sections
  | Some name =>
      if dict_mem key_eqb repository_name relevant_sections
      then Returns relevant_sections
      else Raises (UnterminatedSectionError name)
  end.

(** The two loops of [_find_branches_lists].  In both, [file] is the log
    from the current line on: [line] is its stripped head, [None] when
    [file] is empty, and [line = _get_next_line(file)] moves to the tail.
    [outer_while] is the loop of line 413, [inner_while] the loop of
    line 417; when the inner loop ends on a falsy [line] the outer loop
    ends on it too. *)
Fixpoint outer_while `{PyLib} (config : Config) (file : list string)
  (repository_name : option string)
  (relevant_sections : list (option string * list string))
  (relevant_section : list string) {struct file}
  : outcome (list (option string * list string)) :=
  match file with
  | [] => while_else repository_name relevant_sections
  | raw :: file' =>
      let line := strip raw in
      if truthy (Some line) then
        if matches (branches_info_start_pattern config) line then
          match _extract_repository_name line (repository_name_pattern config) with
          | Raises e => Raises e
          | Returns name =>
              inner_while config file' name relevant_sections relevant_section
          end
        else outer_while config file' repository_name relevant_sections relevant_section
      else while_else repository_name relevant_sections
  end
with inner_while `{PyLib} (config : Config) (file : list string)
  (repository_name : option string)
  (relevant_sections : list (option string * list string))
  (relevant_section : list string) {struct file}
  : outcome (list (option string * list string)) :=
  match file with
  | [] => while_else repository_name relevant_sections
  | raw :: file' =>
      let line := strip raw in
      if truthy (Some line) then
        if matches (branches_info_end_pattern config) line then
          outer_while config file' repository_name
            (dict_set key_eqb repository_name relevant_section relevant_sections) []
        else
          inner_while config file' repository_name relevant_sections
            (relevant_section ++ [line])
      else while_else repository_name relevant_sections
  end.

Definition _find_branches_lists `{PyLib} (file : list string) (config : Config)
  : outcome (list (option string * list string)) :=
  let (line, _) := _get_next_line file in
  if negb (truthy line) then Raises EmptyLogError
  else outer_while config file None [] [].

(** ** The dry-run event index *)

Definition event : Type := option string * option string * option string.

(** The loop of line 485, [file] read as in [outer_while]. *)
Fixpoint general_while `{PyLib} (config : Config) (file : list string)
  (dry_run_infos : list event) {struct file} : outcome (list event) :=
  match file with
  | [] => Returns dry_run_infos
  | raw :: file' =>
      let line := strip raw in
      if truthy (Some line) then
        match re_match (dry_run_info_pattern_general config) line with
        | Some m =>
            match group m "repository_name" with
            | None => Raises no_such_group
            | Some repository_name =>
                match group m "branch_name" with
                | None => Raises no_such_group
                | Some branch_name =>
                    match group m "info" with
                    | None => Raises no_such_group
                    | Some info =>
                        general_while config file'
                          (dry_run_infos ++ [(repository_name, branch_name, info)])
                    end
                end
            end
        | None => general_while config file' dry_run_infos
        end
      else Returns dry_run_infos
  end.

Definition _extract_general_dry_run_infos `{PyLib} (file : list string) (config : Config)
  : outcome (list event) :=
  general_while config file [].

(** [_get_dry_run_info]: the loop of line 539 appends to [result]. *)
Fixpoint get_dry_run_info_loop (repository_name branch_name : string)
  (dry_run_infos : list event) (result : list string) : list string :=
  match dry_run_infos with
  | [] => result
  | (repository, branch, info) :: rest =>
      match info with
      | Some text =>
          if key_eqb repository (Some repository_name)
             && key_eqb branch (Some branch_name)
          then get_dry_run_info_loop repository_name branch_name rest (result ++ [text])
          else get_dry_run_info_loop repository_name branch_name rest result
      | None => get_dry_run_info_loop repository_name branch_name rest result
      end
  end.

Definition _get_dry_run_info (repository_name branch_name : string)
  (dry_run_infos : list event) : list string :=
  get_dry_run_info_loop repository_name branch_name dry_run_infos [].

(** ** The autoclosed-event extractor *)

Definition autoclosed_prefix (offset : Z) : string :=
  "pr title was not found " ++ str_of_int offset
  ++ " lines below the log entry matched by config.dry_run_info_pattern_autoclosed.".

Definition AutoclosedTitleNotFoundError (offset : Z) (line : string) : exn :=
  LogFileParsingError
    (autoclosed_prefix offset ++ " Instead the following line was found: " ++ line).

Definition AutoclosedOffsetMissingError (offset : Z) : exn :=
  LogFileParsingError (autoclosed_prefix offset ++ " Said line is non-existent.").

(** [for _ in range(n): line = _get_next_line(file)], lines 508-509. *)
Fixpoint skip_lines (n : nat) (line : option string) (file : list string)
  : option string * list string :=
  match n with
  | O => (line, file)
  | S n' => let (line', file') := _get_next_line file in skip_lines n' line' file'
  end.

(** The loop of line 504 on the current [line] and the rest of the [file].
    [while line:] keeps a [line] that is neither [None] nor empty.
    After a title is found the loop goes on with the title line as its
    current line, without reading; with an offset below 1 that line is the
    marker line again, so the loop need not end: each turn of the loop
    takes one unit of [fuel], and [None] is a loop still running when the
    fuel is spent. *)
Fixpoint autoclosed_while `{PyLib} (fuel : nat) (config : Config)
  (line : option string) (file : list string)
  (result : list (option string * option string))
  : option (outcome (list (option string * option string))) :=
  match fuel with
  | O => None
  | S fuel' =>
      match (if truthy line then line else None) with
      | Some current =>
        match re_match (dry_run_info_pattern_autoclosed config) current with
        | Some m =>
            match group m "repository_name" with
            | None => Some (Raises no_such_group)
            | Some repository_name =>
                let offset := dry_run_info_autoclosed_pr_title_line_number config in
                let (line', file') := skip_lines (Z.to_nat offset) line file in
                match line' with
                | Some title_line =>
                    match re_match (dry_run_info_autoclosed_pr_title_pattern config) title_line with
                    | Some m' =>
                        match group m' "pr_title" with
                        | None => Some (Raises no_such_group)
                        | Some pr_title =>
                            autoclosed_while fuel' config line' file'
                              (result ++ [(repository_name, pr_title)])
                        end
                    | None => Some (Raises (AutoclosedTitleNotFoundError offset title_line))
                    end
                | None => Some (Raises (AutoclosedOffsetMissingError offset))
                end
            end
        | None =>
            let (line', file') := _get_next_line file in
            autoclosed_while fuel' config line' file' result
        end
      | None => Some (Returns result)
      end
  end.

Definition _extract_and_process_autoclosed_dry_run_infos `{PyLib} (fuel : nat)
  (file : list string) (config : Config)
  : option (outcome (list (option string * option string))) :=
  let (line, file') := _get_next_line file in
  autoclosed_while fuel config line file' [].

(** ** The section decoder *)

Definition dquote : string := String (ascii_of_nat 34) EmptyString.

Definition quoted (s : string) : string := dquote ++ s ++ dquote.

(** [joined_string], lines 456-458. *)
Definition section_json `{PyLib} (timestamp_pattern : pattern) (lines : list string) : string :=
  "{" ++ String.concat "" (map (fun line => re_sub timestamp_pattern "" line) lines) ++ "}".

(** [branches_info], line 466. *)
Definition autoclosed_json (prTitle : option string) : string :=
  "{" ++ quoted "branchesInformation" ++ ":" ++ "[" ++ "{"
  ++ quoted "prTitle" ++ ": " ++ quoted (str_or prTitle "N/A") ++ ", "
  ++ quoted "result" ++ ": " ++ quoted "discarded" ++ "}" ++ "]" ++ "}".

(** [{"repository": repository, **value}]; a [value] that is no [dict]
    cannot be unpacked. *)
Definition with_repository (repository : pyvalue) (value : pyvalue) : outcome pyvalue :=
  match value with
  | PyDict entries =>
      Returns (PyDict (dict_merge String.eqb [("repository", repository)] entries))
  | _ => Raises (TypeError ("'" ++ type_name value ++ "' object is not a mapping"))
  end.

(** The loop of line 455. *)
Fixpoint sections_for `{PyLib} (relevant_sections : list (option string * list string))
  (timestamp_pattern : pattern) (items : list pyvalue) : outcome (list pyvalue) :=
  match relevant_sections with
  | [] => Returns items
  | (repository, lines) :: rest =>
      match json_loads (section_json timestamp_pattern lines) with
      | inl ex => Raises (JSONDecodeError ("Failed to parse JSON: " ++ ex))
      | inr value =>
          match with_repository (py_of_option repository) value with
          | Raises e => Raises e
          | Returns item => sections_for rest timestamp_pattern (items ++ [item])
          end
      end
  end.

(** The loop of line 465. *)
Fixpoint autoclosed_for `{PyLib} (autoclosed_branches : list (option string * option string))
  (items : list pyvalue) : outcome (list pyvalue) :=
  match autoclosed_branches with
  | [] => Returns items
  | (repository, prTitle) :: rest =>
      match json_loads (autoclosed_json prTitle) with
      | inl ex => Raises (JSONDecodeError ex)
      | inr value =>
          match with_repository (PyStr (str_or repository "N/A")) value with
          | Raises e => Raises e
          | Returns item => autoclosed_for rest (items ++ [item])
          end
      end
  end.

Definition _process_branches_lists `{PyLib}
  (relevant_sections : list (option string * list string))
  (autoclosed_branches : list (option string * option string))
  (timestamp_pattern : pattern) : outcome pyvalue :=
  match sections_for relevant_sections timestamp_pattern [] with
  | Raises e => Raises e
  | Returns items =>
      match autoclosed_for autoclosed_branches items with
      | Raises e => Raises e
      | Returns items' => Returns (PyDict [("items", PyList items')])
      end
  end.

(** ** The classifier *)

(** ["<br>".join(lines)]. *)
Definition br_join (lines : list string) : string := String.concat "<br>" lines.

Definition _done_state_drilldown `{PyLib} (config : Config) (dry_run_info : list string)
  : string * string :=
  if Nat.eqb (List.length dry_run_info) 0 then (UNCHANGED_PR, "")
  else if existsb (matches (updated_branch_pattern config)) dry_run_info
  then (UPDATED_PR, "")
  else if existsb (matches (created_branch_pattern config)) dry_run_info
  then (NEW_PR, "")
  else if existsb (matches (commited_files_pattern config)) dry_run_info
  then (UNCHANGED_PR, "")
  else (UNKNOWN_PR, br_join dry_run_info).

Definition _no_work_state_drilldown `{PyLib} (config : Config) (dry_run_info : list string)
  : string * string :=
  if Nat.eqb (List.length dry_run_info) 0 then (UNCHANGED_PR, "")
  else if existsb (matches (commited_files_pattern config)) dry_run_info
  then (NEW_PR, "")
  else (UNKNOWN_PR, br_join dry_run_info).

Definition _determine_pr_status `{PyLib} (pr_result repository_name branch_name : string)
  (config : Config) (dry_run_infos : list event) : string * string :=
  let dry_run_info := _get_dry_run_info repository_name branch_name dry_run_infos in
  if String.eqb pr_result "discarded" then
    (DISCARDED_PR, "PR would be discarded")
  else if String.eqb pr_result "already-existed" then
    (SKIPPED_PR, "There is a closed PR for this dependency update so Renovate skipped the recreation of the PR")
  else if String.eqb pr_result "not-scheduled" then
    (SKIPPED_PR, "PR is not scheduled for this repository")
  else if String.eqb pr_result "update-not-scheduled" then
    (SKIPPED_PR, "PR is not scheduled for this repository")
  else if String.eqb pr_result "pr-limit-reached" then
    (SKIPPED_PR, "PR limit reached for this repository")
  else if String.eqb pr_result "commit-limit-reached" then
    (SKIPPED_PR, "Commit limit reached for this repository")
  else if String.eqb pr_result "branch-limit-reached" then
    (SKIPPED_PR, "Branch limit reached for this repository")
  else if String.eqb pr_result "pr-edited" then
    (SKIPPED_PR, "PR has been manually edited so Renovate skipped any processing in order to not override any manual changes")
  else if String.eqb pr_result "error" then (ERROR_PR, br_join dry_run_info)
  else if String.eqb pr_result "pending" then (PENDING_PR, br_join dry_run_info)
  else if String.eqb pr_result "needs-pr-approval" then (PENDING_PR, br_join dry_run_info)
  else if String.eqb pr_result "needs-approval" then (PENDING_PR, br_join dry_run_info)
  else if String.eqb pr_result "no-work" then _no_work_state_drilldown config dry_run_info
  else if String.eqb pr_result "done" then _done_state_drilldown config dry_run_info
  else if String.eqb pr_result "pr-created" then (NEW_PR, "")
  else if String.eqb pr_result "rebase" then (UNCHANGED_PR, "PR would be rebased")
  else if String.eqb pr_result "automerged" then (AUTOMERGED_PR, "PR would be automerged")
  else (UNKNOWN_PR, ("Unknown PR state<br>" ++ br_join dry_run_info)%string).

(** ** A regular-expression engine

    An engine for the patterns built from literal text, [.+], [\w+],
    sequencing, named groups [(?P<name>r)] and greedy options [(?:r)?],
    with the leftmost, greedy, backtracking meaning they have in [re].
    It serves the concrete runs below; the properties of the program are
    proved for any [PyLib]. *)
Inductive rx : Type :=
| RLit (text : string)
| RAny
| RWord
| RSeq (a b : rx)
| RNamed (name : string) (r : rx)
| ROpt (r : rx).

Fixpoint string_drop (n : nat) (s : string) : string :=
  match n, s with
  | O, _ => s
  | S n', String _ s' => string_drop n' s'
  | S _, EmptyString => EmptyString
  end.

(** [s] starts with [word]. *)
Fixpoint starts_with (word s : string) : bool :=
  match word, s with
  | EmptyString, _ => true
  | String a word', String b s' => Ascii.eqb a b && starts_with word' s'
  | String _ _, EmptyString => false
  end.

Definition consumed (s rest : string) : string :=
  substring 0 (String.length s - String.length rest) s.

Definition is_newline (c : ascii) : bool := (nat_of_ascii c =? 10)%nat.

Definition is_word (c : ascii) : bool :=
  let n := nat_of_ascii c in
  (((48 <=? n) && (n <=? 57)) || ((65 <=? n) && (n <=? 90))
   || ((97 <=? n) && (n <=? 122)) || (n =? 95))%nat.

(** Greedy [c+] for a character class: the longest run first, then
    shorter ones. *)
Fixpoint rx_plus {R : Type} (class : ascii -> bool) (k : string -> option R) (s : string)
  : option R :=
  match s with
  | EmptyString => None
  | String c s' =>
      if class c then
        match rx_plus class k s' with
        | Some x => Some x
        | None => k s'
        end
      else None
  end.

Fixpoint rx_run {R : Type} (r : rx) (s : string) (caps : list (string * string))
  (k : string -> list (string * string) -> option R) {struct r} : option R :=
  match r with
  | RLit text => if starts_with text s then k (string_drop (String.length text) s) caps else None
  | RAny => rx_plus (fun c => negb (is_newline c)) (fun rest => k rest caps) s
  | RWord => rx_plus is_word (fun rest => k rest caps) s
  | RSeq a b => rx_run a s caps (fun rest caps' => rx_run b rest caps' k)
  | RNamed name r' =>
      rx_run r' s caps (fun rest caps' => k rest ((name, consumed s rest) :: caps'))
  | ROpt r' =>
      match rx_run r' s caps k with
      | Some x => Some x
      | None => k s caps
      end
  end.

Fixpoint rx_names (r : rx) : list string :=
  match r with
  | RLit _ | RAny | RWord => []
  | RSeq a b => rx_names a ++ rx_names b
  | RNamed name r' => name :: rx_names r'
  | ROpt r' => rx_names r'
  end.

(** A match at the start of [s], with what follows it. *)
Definition rx_match_at (r : rx) (s : string) : option (Match * string) :=
  rx_run r s []
    (fun rest caps =>
       Some ({| whole := consumed s rest;
                groups := map (fun name => assoc name caps) (rx_names r);
                named := map (fun name => (name, assoc name caps)) (rx_names r) |},
             rest)).

Definition rx_match (r : rx) (s : string) : option Match :=
  option_map fst (rx_match_at r s).

Fixpoint rx_search (r : rx) (s : string) : option Match :=
  match rx_match_at r s with
  | Some (m, _) => Some m
  | None =>
      match s with
      | EmptyString => None
      | String _ s' => rx_search r s'
      end
  end.

Fixpoint rx_sub_loop (fuel : nat) (r : rx) (repl s : string) : string :=
  match fuel with
  | O => s
  | S fuel' =>
      match rx_match_at r s with
      | Some (_, rest) =>
          if (String.length rest <? String.length s)%nat
          then repl ++ rx_sub_loop fuel' r repl rest
          else match s with
               | EmptyString => repl
               | String c s' => repl ++ String c (rx_sub_loop fuel' r repl s')
               end
      | None =>
          match s with
          | EmptyString => EmptyString
          | String c s' => String c (rx_sub_loop fuel' r repl s')
          end
      end
  end.

Definition rx_sub (r : rx) (repl s : string) : string :=
  rx_sub_loop (S (String.length s)) r repl s.

(** ** A JSON reader

    Objects, arrays, strings with the one-letter escapes, numbers and the
    three literals; [\u] escapes and the non-standard [NaN] and
    [Infinity] are left out. *)
Definition is_json_space (c : ascii) : bool :=
  Ascii.eqb c " " || Ascii.eqb c (ascii_of_nat 9) || Ascii.eqb c (ascii_of_nat 10)
  || Ascii.eqb c (ascii_of_nat 13).

Fixpoint skip_ws (s : string) : string :=
  match s with
  | EmptyString => EmptyString
  | String c s' => if is_json_space c then skip_ws s' else s
  end.

Definition is_digit (c : ascii) : bool :=
  let n := nat_of_ascii c in ((48 <=? n) && (n <=? 57))%nat.

Definition is_quote (c : ascii) : bool := Ascii.eqb c (ascii_of_nat 34).

Definition is_backslash (c : ascii) : bool := Ascii.eqb c (ascii_of_nat 92).

(** A code point below 32: none of the three high bits is set. *)
Definition is_control (c : ascii) : bool :=
  match c with
  | Ascii _ _ _ _ _ b5 b6 b7 => negb (b5 || b6 || b7)
  end.

Definition unescape (c : ascii) : option ascii :=
  if is_quote c then Some c
  else if is_backslash c then Some c
  else if Ascii.eqb c "/" then Some c
  else if Ascii.eqb c "b" then Some (ascii_of_nat 8)
  else if Ascii.eqb c "f" then Some (ascii_of_nat 12)
  else if Ascii.eqb c "n" then Some (ascii_of_nat 10)
  else if Ascii.eqb c "r" then Some (ascii_of_nat 13)
  else if Ascii.eqb c "t" then Some (ascii_of_nat 9)
  else None.

(** The text of a string literal after its opening quote, and what follows
    the closing quote. *)
Fixpoint read_string (s : string) : option (string * string) :=
  match s with
  | EmptyString => None
  | String c s' =>
      if is_quote c then Some (EmptyString, s')
      else if is_backslash c then
        match s' with
        | EmptyString => None
        | String e s'' =>
            match unescape e, read_string s'' with
            | Some ch, Some (text, rest) => Some (String ch text, rest)
            | _, _ => None
            end
        end
      else if is_control c then None
      else
        match read_string s' with
        | Some (text, rest) => Some (String c text, rest)
        | None => None
        end
  end.

Fixpoint read_digits (s : string) : string * string :=
  match s with
  | EmptyString => (EmptyString, EmptyString)
  | String c s' =>
      if is_digit c then let (ds, rest) := read_digits s' in (String c ds, rest)
      else (EmptyString, s)
  end.

Definition digits_value (ds : string) : Z :=
  fold_left (fun acc c => (10 * acc + Z.of_nat (nat_of_ascii c - 48))%Z)
    (list_ascii_of_string ds) 0%Z.

(** [0] or a run of digits that does not start with [0]. *)
Definition read_int_part (s : string) : option (string * string) :=
  match s with
  | String c s' =>
      if Ascii.eqb c "0" then Some (String c EmptyString, s')
      else if is_digit c then Some (read_digits s)
      else None
  | EmptyString => None
  end.

Definition digits_after (head s : string) : option (string * string) :=
  match read_digits s with
  | (EmptyString, _) => None
  | (ds, rest) => Some (head ++ ds, rest)
  end.

Definition read_fraction (s : string) : option (string * string) :=
  match s with
  | String c s' =>
      if Ascii.eqb c "." then digits_after (String c EmptyString) s'
      else Some (EmptyString, s)
  | EmptyString => Some (EmptyString, s)
  end.

Definition read_exponent (s : string) : option (string * string) :=
  match s with
  | String c s' =>
      if Ascii.eqb c "e" || Ascii.eqb c "E" then
        match s' with
        | String d s'' =>
            if Ascii.eqb d "+" || Ascii.eqb d "-"
            then digits_after (String c (String d EmptyString)) s''
            else digits_after (String c EmptyString) s'
        | EmptyString => None
        end
      else Some (EmptyString, s)
  | EmptyString => Some (EmptyString, s)
  end.

Definition read_number (s : string) : option (pyvalue * string) :=
  let (negative, s1) :=
    match s with
    | String c s' => if Ascii.eqb c "-" then (true, s') else (false, s)
    | EmptyString => (false, s)
    end in
  match read_int_part s1 with
  | None => None
  | Some (ds, s2) =>
      match read_fraction s2 with
      | None => None
      | Some (frac, s3) =>
          match read_exponent s3 with
          | None => None
          | Some (ex, s4) =>
              match frac, ex with
              | EmptyString, EmptyString =>
                  Some (PyInt (if negative then - digits_value ds
                               else digits_value ds)%Z, s4)
              | _, _ =>
                  Some (PyFloat ((if negative then "-" else "") ++ ds ++ frac ++ ex), s4)
              end
          end
      end
  end.

(** Whether [s] opens, after white space, with the character [c]; the
    rest of [s] then. *)
Definition after_char (c : ascii) (s : string) : option string :=
  match skip_ws s with
  | String c' rest => if Ascii.eqb c' c then Some rest else None
  | EmptyString => None
  end.

Fixpoint read_value (fuel : nat) (s : string) : option (pyvalue * string) :=
  match fuel with
  | O => None
  | S fuel' =>
      match skip_ws s with
      | EmptyString => None
      | String c s1 =>
          if Ascii.eqb c "{" then
            match after_char "}" s1 with
            | Some s2 => Some (PyDict [], s2)
            | None => read_members fuel' s1 []
            end
          else if Ascii.eqb c "[" then
            match after_char "]" s1 with
            | Some s2 => Some (PyList [], s2)
            | None => read_elements fuel' s1 []
            end
          else if is_quote c then
            match read_string s1 with
            | Some (text, rest) => Some (PyStr text, rest)
            | None => None
            end
          else if starts_with "true" (String c s1)
          then Some (PyBool true, string_drop 4 (String c s1))
          else if starts_with "false" (String c s1)
          then Some (PyBool false, string_drop 5 (String c s1))
          else if starts_with "null" (String c s1)
          then Some (PyNone, string_drop 4 (String c s1))
          else read_number (String c s1)
      end
  end
with read_members (fuel : nat) (s : string) (entries : list (string * pyvalue))
  : option (pyvalue * string) :=
  match fuel with
  | O => None
  | S fuel' =>
      match after_char (ascii_of_nat 34) s with
      | None => None
      | Some s1 =>
          match read_string s1 with
          | None => None
          | Some (key, s2) =>
              match after_char ":" s2 with
              | None => None
              | Some s3 =>
                  match read_value fuel' s3 with
                  | None => None
                  | Some (value, s4) =>
                      let entries' := dict_set String.eqb key value entries in
                      match after_char "," s4, after_char "}" s4 with
                      | Some s5, _ => read_members fuel' s5 entries'
                      | None, Some s5 => Some (PyDict entries', s5)
                      | None, None => None
                      end
                  end
              end
          end
      end
  end
with read_elements (fuel : nat) (s : string) (items : list pyvalue)
  : option (pyvalue * string) :=
  match fuel with
  | O => None
  | S fuel' =>
      match read_value fuel' s with
      | None => None
      | Some (value, s1) =>
          match after_char "," s1, after_char "]" s1 with
          | Some s2, _ => read_elements fuel' s2 (items ++ [value])
          | None, Some s2 => Some (PyList (items ++ [value]), s2)
          | None, None => None
          end
      end
  end.

Definition mini_json_loads (s : string) : string + pyvalue :=
  match read_value (S (String.length s)) s with
  | Some (value, rest) =>
      match skip_ws rest with
      | EmptyString => inr value
      | _ => inl "Extra data"
      end
  | None => inl "Expecting value"
  end.

(** The characters and the texts that stand for themselves inside a JSON
    string literal. *)
Definition json_plain_char (c : ascii) : bool :=
  negb (is_quote c) && negb (is_backslash c) && negb (is_control c).

Fixpoint json_plain (s : string) : bool :=
  match s with
  | EmptyString => true
  | String c s' => json_plain_char c && json_plain s'
  end.

(** The two together. *)
Definition mini : PyLib := {|
  pattern := rx;
  re_match := rx_match;
  re_search := rx_search;
  re_sub := rx_sub;
  json_loads := mini_json_loads
|}.

(** ** The vocabulary of the specification *)

(** The lines a scan sees: the stripped lines before the first line that is
    empty once stripped. *)
Fixpoint visible (file : list string) : list string :=
  match file with
  | [] => []
  | raw :: rest => if truthy (Some (strip raw)) then strip raw :: visible rest else []
  end.

(** The sections of a sequence of lines, in the words of the specification:
    a start marker from which a repository identifier is extracted, a body
    of lines that are no end marker, and a matching end marker. *)
Section Sections.
Context `{PyLib} (config : Config).

Definition is_start (line : string) : Prop :=
  matches (branches_info_start_pattern config) line = true.

Definition is_end (line : string) : Prop :=
  matches (branches_info_end_pattern config) line = true.

(** [section_at lines repository rest]: [lines] opens with a section of
    [repository], and [rest] follows its end marker. *)
Inductive section_at : list string -> option string -> list string -> Prop :=
| section_at_intro (line : string) (repository : option string)
    (body : list string) (closing : string) (rest : list string) :
    is_start line ->
    _extract_repository_name line (repository_name_pattern config) = Returns repository ->
    Forall (fun l => ~ is_end l) body ->
    is_end closing ->
    section_at (line :: body ++ closing :: rest) repository rest.

(** [sealed lines repository]: [repository] is extracted at a start marker
    of [lines] that has a matching end marker.  Lines outside a section
    that are no start marker are passed over. *)
Inductive sealed : list string -> option string -> Prop :=
| sealed_here (lines : list string) (repository : option string) (rest : list string) :
    section_at lines repository rest -> sealed lines repository
| sealed_after_line (line : string) (lines : list string) (repository : option string) :
    ~ is_start line -> sealed lines repository -> sealed (line :: lines) repository
| sealed_after_section (lines : list string) (other : option string)
    (rest : list string) (repository : option string) :
    section_at lines other rest -> sealed rest repository -> sealed lines repository.

(** The lines after a start marker of [repository]: they reach an end
    marker, and [found] is [repository] or is sealed further on. *)
Inductive closes : list string -> option string -> option string -> Prop :=
| closes_end (closing : string) (rest : list string) (repository found : option string) :
    is_end closing ->
    found = repository \/ sealed rest found ->
    closes (closing :: rest) repository found
| closes_body (line : string) (lines : list string) (repository found : option string) :
    ~ is_end line ->
    closes lines repository found ->
    closes (line :: lines) repository found.

(** The repository-name pattern finds a match without a first group on a
    start marker among the lines the scan sees. *)
Definition group_missing (file : list string) : Prop :=
  exists (line : string) (m : Match),
    In line (visible file)
    /\ is_start line
    /\ re_search (repository_name_pattern config) line = Some m
    /\ group_index m 1 = None.

(** What the specification promises of the section scan on the lines
    [lines] of the log [file]. *)
Definition sections_or_error (file lines : list string) : Prop :=
  match _find_branches_lists file config with
  | Returns sections =>
      forall repository, In repository (dict_keys sections) <-> sealed lines repository
  | Raises e =>
      e = EmptyLogError \/ e = RepositoryNameError
      \/ exists name, e = UnterminatedSectionError name
  end.

(** Some line of [infos] matches the pattern [p]. *)
Definition any_match (p : pattern) (infos : list string) : Prop :=
  exists info, In info infos /\ matches p info = true.
End Sections.

(** The lookup of the event index, in the words of the specification: the
    [info] of every event whose repository and branch are the given ones and
    whose [info] is present, in the order of the events. *)
Definition events_for (repository branch : string) (events : list event) : list string :=
  flat_map
    (fun e : event =>
       match e with
       | (Some r, Some b, Some info) =>
           if String.eqb r repository && String.eqb b branch then [info] else []
       | _ => []
       end)
    events.

(** The result codes of the table of the classifier. *)
Definition recognized_codes : list string :=
  ["discarded"; "already-existed"; "not-scheduled"; "update-not-scheduled";
   "pr-limit-reached"; "commit-limit-reached"; "branch-limit-reached";
   "pr-edited"; "error"; "pending"; "needs-pr-approval"; "needs-approval";
   "no-work"; "done"; "pr-created"; "rebase"; "automerged"].

(** The line [n] positions forward of the marker line [line], the marker
    line itself being at position 0. *)
Definition offset_line (line : string) (file : list string) (n : nat) : option string :=
  nth_error (line :: map strip file) n.

(** The synthetic document of an autoclosed record. *)
Definition autoclosed_fields (prTitle : string) : list (string * pyvalue) :=
  [("branchesInformation",
    PyList [PyDict [("prTitle", PyStr prTitle); ("result", PyStr "discarded")]])].

Definition autoclosed_document (repository prTitle : string) : pyvalue :=
  PyDict (("repository", PyStr repository) :: autoclosed_fields prTitle).

(** Every marker line of [lines] has its title line inside [lines] or just
    after its end. *)
Definition titles_within `{PyLib} (config : Config) (lines : list string) : Prop :=
  forall (i : nat) (raw : string),
    nth_error lines i = Some raw ->
    matches (dry_run_info_pattern_autoclosed config) (strip raw) = true ->
    i + Z.to_nat (dry_run_info_autoclosed_pr_title_line_number config) <= List.length lines.

(** The states of the autoclosed loop on two logs that agree up to an empty
    line: the loop is over, or it stands before the empty line in both, the
    title line of the current line and of every later marker not beyond the
    empty line. *)
Definition agree_up_to_blank `{PyLib} (config : Config) (blank : string)
  (after after' : list string) (line : option string) (file file' : list string) : Prop :=
  truthy line = false
  \/ exists before : list string,
       file = (before ++ blank :: after)%list
       /\ file' = (before ++ blank :: after')%list
       /\ titles_within config before
       /\ forall current : string,
            line = Some current ->
            matches (dry_run_info_pattern_autoclosed config) current = true ->
            Z.to_nat (dry_run_info_autoclosed_pr_title_line_number config)
            <= S (List.length before).

(** The document of a section whose body decodes to [entries]. *)
Definition section_document (section : option string * list string)
  (entries : list (string * pyvalue)) : pyvalue :=
  PyDict (dict_merge String.eqb [("repository", py_of_option (fst section))] entries).

(** The body of the section decodes to the object [entries]. *)
Definition decodes_to `{PyLib} (timestamp_pattern : pattern)
  (section : option string * list string) (entries : list (string * pyvalue)) : Prop :=
  json_loads (section_json timestamp_pattern (snd section)) = inr (PyDict entries).

(** The text built for the record decodes to the object it spells out. *)
Definition spelled_out `{PyLib} (record : option string * option string) : Prop :=
  json_loads (autoclosed_json (snd record))
  = inr (PyDict (autoclosed_fields (str_or (snd record) "N/A"))).

Definition record_document (record : option string * option string) : pyvalue :=
  autoclosed_document (str_or (fst record) "N/A") (str_or (snd record) "N/A").

(** ** Concrete configurations and logs *)

Definition newline : string := String (ascii_of_nat 10) EmptyString.

(** The patterns [START], [END], [repo: (?P<name>.+)],
    [DRY-RUN repo=(?P<repository_name>\w+) branch=(?P<branch_name>\w+)(?: info=(?P<info>.+))?],
    [autoclosed repo=(?P<repository_name>.+)], [title=(?P<pr_title>.+)],
    [updated], [created] and [committed], with the title expected [offset]
    lines below the marker. *)
Definition sample_config (offset : Z) : @Config mini :=
  @Build_Config mini
    (RLit "START")
    (RLit "END")
    (RSeq (RLit "repo: ") (RNamed "name" RAny))
    (RLit "TS ")
    (RSeq (RLit "DRY-RUN repo=")
       (RSeq (RNamed "repository_name" RWord)
          (RSeq (RLit " branch=")
             (RSeq (RNamed "branch_name" RWord)
                (ROpt (RSeq (RLit " info=") (RNamed "info" RAny)))))))
    (RSeq (RLit "autoclosed repo=") (RNamed "repository_name" RAny))
    offset
    (RSeq (RLit "title=") (RNamed "pr_title" RAny))
    (RLit "updated")
    (RLit "created")
    (RLit "committed").

(** The configuration of the tests of [_find_branches_lists]: the patterns
    [start_pattern] and [end_pattern], every other pattern empty. *)
Definition test_config : @Config mini :=
  @Build_Config mini
    (RLit "start_pattern") (RLit "end_pattern") (RLit "") (RLit "")
    (RLit "") (RLit "") 2 (RLit "") (RLit "") (RLit "") (RLit "").

(** A general-info pattern without the [info] group:
    [DRY-RUN repo=(?P<repository_name>\w+) branch=(?P<branch_name>\w+)]. *)
Definition no_info_config : @Config mini :=
  @Build_Config mini
    (RLit "START") (RLit "END") (RSeq (RLit "repo: ") (RNamed "name" RAny))
    (RLit "TS ")
    (RSeq (RLit "DRY-RUN repo=")
       (RSeq (RNamed "repository_name" RWord)
          (RSeq (RLit " branch=") (RNamed "branch_name" RWord))))
    (RSeq (RLit "autoclosed repo=") (RNamed "repository_name" RAny))
    2
    (RSeq (RLit "title=") (RNamed "pr_title" RAny))
    (RLit "updated") (RLit "created") (RLit "committed").

Definition raw_lines (lines : list string) : list string :=
  map (fun line => line ++ newline) lines.

(** A section of repository [A] that is closed, then a second start marker
    for [A] that is never closed. *)
Definition reopened_log : list string :=
  raw_lines ["START repo: A"; "x"; "END"; "START repo: A"; "y"].

(** Two closed sections with an empty line between them. *)
Definition blank_between_sections_log : list string :=
  raw_lines ["START repo: A"; "x"; "END"; ""; "START repo: B"; "y"; "END"].

(** The log of the tests of [_find_branches_lists]. *)
Definition test_log : list string :=
  raw_lines ["start_pattern(repo: test_repo)"; "branch info"; "end_pattern"].

(** A marker line followed at once by its title line. *)
Definition marker_then_title_log : list string :=
  raw_lines ["autoclosed repo=R"; "title=T"].

(** Two autoclosed records, the first with an empty line between the marker
    and the title. *)
Definition blank_in_window_log : list string :=
  raw_lines ["autoclosed repo=R"; ""; "title=T"; "autoclosed repo=S"; "x"; "title=U"].

(** ** The rest of the engine *)

(** [s.replace(old, new)].  For a non-empty [old] the text is read from the
    left; where [old] starts, [new] is written and the characters of [old]
    are passed over ([skip] counts those still to pass), elsewhere the
    character is copied.  For an empty [old], [new] is written before every
    character and at the end. *)
Fixpoint replace_from (skip : nat) (old new s : string) : string :=
  match s with
  | EmptyString => EmptyString
  | String c s' =>
      match skip with
      | S skip' => replace_from skip' old new s'
      | O =>
          if starts_with old s
          then new ++ replace_from (String.length old - 1) old new s'
          else String c (replace_from 0 old new s')
      end
  end.

Fixpoint insert_after_each (new s : string) : string :=
  match s with
  | EmptyString => EmptyString
  | String c s' => String c (new ++ insert_after_each new s')
  end.

Definition str_replace (s old new : string) : string :=
  match old with
  | EmptyString => new ++ insert_after_each new s
  | String _ _ => replace_from 0 old new s
  end.

(** [old] starts somewhere in [s]. *)
Fixpoint occurs (old s : string) : bool :=
  starts_with old s
  || match s with
     | EmptyString => false
     | String _ s' => occurs old s'
     end.

(** The expansion leaves [text] as it is. *)
Definition kept (placeholder base text : string) : Prop :=
  (placeholder = "" /\ base = "") \/ occurs placeholder text = false.

(** [Config.__init__], lines 25-36.  [compile] reads a pattern text as a
    pattern of the engine. *)
Definition Config__init__ `{PyLib} (compile : string -> pattern)
  (branches_info_start_pattern branches_info_end_pattern repository_name_pattern
   timestamp_base_pattern timestamp_base_pattern_placeholder timestamp_pattern
   dry_run_info_pattern_general dry_run_info_pattern_autoclosed : string)
  (dry_run_info_autoclosed_pr_title_line_number : Z)
  (dry_run_info_autoclosed_pr_title_pattern updated_branch_pattern
   created_branch_pattern commited_files_pattern : string) : Config :=
  let expand (text : string) : pattern :=
    compile (str_replace text timestamp_base_pattern_placeholder timestamp_base_pattern) in
  Build_Config _
    (expand branches_info_start_pattern)
    (expand branches_info_end_pattern)
    (expand repository_name_pattern)
    (expand timestamp_pattern)
    (expand dry_run_info_pattern_general)
    (expand dry_run_info_pattern_autoclosed)
    dry_run_info_autoclosed_pr_title_line_number
    (expand dry_run_info_autoclosed_pr_title_pattern)
    (expand updated_branch_pattern)
    (expand created_branch_pattern)
    (expand commited_files_pattern).

(** The four stages of [execute] between the reading of the configuration
    and the writing of the report, lines 657-666; each scan opens the log
    anew.  The result is what the report generator is given. *)
Definition execute_stages `{PyLib} (fuel : nat) (file : list string) (config : Config)
  : option (outcome (pyvalue * list event)) :=
  match _extract_general_dry_run_infos file config with
  | Raises e => Some (Raises e)
  | Returns dry_run_infos =>
      match _extract_and_process_autoclosed_dry_run_infos fuel file config with
      | None => None
      | Some (Raises e) => Some (Raises e)
      | Some (Returns autoclosed_branches) =>
          match _find_branches_lists file config with
          | Raises e => Some (Raises e)
          | Returns branches_lists =>
              match _process_branches_lists branches_lists autoclosed_branches
                      (timestamp_pattern config) with
              | Raises e => Some (Raises e)
              | Returns serialized_branches_lists =>
                  Some (Returns (serialized_branches_lists, dry_run_infos))
              end
          end
      end
  end.

(** ** More vocabulary *)

(** Every character of [s] is white space. *)
Fixpoint all_space (s : string) : bool :=
  match s with
  | EmptyString => true
  | String c s' => is_space c && all_space s'
  end.

(** The match of the general-info pattern on [line] has the three named
    groups. *)
Definition exposes_groups `{PyLib} (config : Config) (line : string) : Prop :=
  forall m : Match,
    re_match (dry_run_info_pattern_general config) line = Some m ->
    exists repository_name branch_name info : option string,
      group m "repository_name" = Some repository_name
      /\ group m "branch_name" = Some branch_name
      /\ group m "info" = Some info.

(** The events of a line: one when the line matches the general-info
    pattern, none otherwise. *)
Definition events_of_line `{PyLib} (config : Config) (line : string) : list event :=
  match re_match (dry_run_info_pattern_general config) line with
  | Some m =>
      match group m "repository_name", group m "branch_name", group m "info" with
      | Some repository_name, Some branch_name, Some info =>
          [(repository_name, branch_name, info)]
      | _, _, _ => []
      end
  | None => []
  end.

(** The event is of another repository or branch, or has no info. *)
Definition foreign_event (repository branch : string) (e : event) : Prop :=
  forall info : string, e <> (Some repository, Some branch, Some info).

(** The nine states. *)
Definition states : list string :=
  [UNCHANGED_PR; UPDATED_PR; NEW_PR; DISCARDED_PR; SKIPPED_PR; ERROR_PR;
   PENDING_PR; AUTOMERGED_PR; UNKNOWN_PR].

(** The result codes whose row of the table is a fixed state and a fixed
    text. *)
Definition fixed_codes : list string :=
  ["discarded"; "already-existed"; "not-scheduled"; "update-not-scheduled";
   "pr-limit-reached"; "commit-limit-reached"; "branch-limit-reached";
   "pr-edited"; "pr-created"; "rebase"; "automerged"].

(** A line the scans go through: not empty once stripped. *)
Definition seen (raw : string) : Prop := truthy (Some (strip raw)) = true.

(** A line of the body of a section: seen, and no end marker. *)
Definition body_line `{PyLib} (config : Config) (raw : string) : Prop :=
  seen raw /\ matches (branches_info_end_pattern config) (strip raw) = false.

(** A section as it stands in a log: the start line, the lines of the
    body, the end line, and the repository identifier the start line
    gives. *)
Record section_block : Type := {
  start_line : string;
  body_lines : list string;
  end_line : string;
  block_repository : option string
}.

Definition block_text (b : section_block) : list string :=
  (start_line b :: body_lines b ++ [end_line b])%list.

Definition well_formed_block `{PyLib} (config : Config) (b : section_block) : Prop :=
  seen (start_line b)
  /\ matches (branches_info_start_pattern config) (strip (start_line b)) = true
  /\ _extract_repository_name (strip (start_line b)) (repository_name_pattern config)
     = Returns (block_repository b)
  /\ Forall (body_line config) (body_lines b)
  /\ seen (end_line b)
  /\ matches (branches_info_end_pattern config) (strip (end_line b)) = true.

(** [relevant_sections[repository_name] = list(relevant_section)] for the
    section [b]. *)
Definition assign_block (relevant_sections : list (option string * list string))
  (b : section_block) : list (option string * list string) :=
  dict_set key_eqb (block_repository b) (map strip (body_lines b)) relevant_sections.

(** No line the scan sees in [file] is a start marker. *)
Definition no_start_marker `{PyLib} (config : Config) (file : list string) : Prop :=
  Forall (fun line => matches (branches_info_start_pattern config) line = false)
         (visible file).

(** A marker and its title on one line: the patterns
    [closed (?P<repository_name>\w+)] and [closed \w+: (?P<pr_title>.+)], the
    title expected [offset] lines below the marker. *)
Definition same_line_config (offset : Z) : @Config mini :=
  @Build_Config mini
    (RLit "START") (RLit "END") (RSeq (RLit "repo: ") (RNamed "name" RAny))
    (RLit "TS ")
    (RSeq (RLit "DRY-RUN repo=")
       (RSeq (RNamed "repository_name" RWord)
          (RSeq (RLit " branch=") (RNamed "branch_name" RWord))))
    (RSeq (RLit "closed ") (RNamed "repository_name" RWord))
    offset
    (RSeq (RLit "closed ") (RSeq RWord (RSeq (RLit ": ") (RNamed "pr_title" RAny))))
    (RLit "updated") (RLit "created") (RLit "committed").

(** A document whose first key is [repository]. *)
Definition repository_first (item : pyvalue) : Prop :=
  exists (repository : pyvalue) (rest : list (string * pyvalue)),
    item = PyDict (("repository", repository) :: rest).

(** * Properties *)

(** ** The loops and the file

    Each loop of the two terminating scans, written with the call of
    [_get_next_line] that fetches its current line. *)

Lemma outer_while_next `{PyLib} (config : Config) (file : list string)
  (repository_name : option string)
  (relevant_sections : list (option string * list string))
  (relevant_section : list string) :
  outer_while config file repository_name relevant_sections relevant_section
  = let (line, file') := _get_next_line file in
    match (if truthy line then line else None) with
    | Some current =>
        if matches (branches_info_start_pattern config) current then
          match _extract_repository_name current (repository_name_pattern config) with
          | Raises e => Raises e
          | Returns name =>
              inner_while config file' name relevant_sections relevant_section
          end
        else outer_while config file' repository_name relevant_sections relevant_section
    | None => while_else repository_name relevant_sections
    end.
Proof.
  destruct file as [|raw file']; cbn [outer_while _get_next_line]; [reflexivity|].
  now destruct (truthy (Some (strip raw))).
Qed.

Lemma inner_while_next `{PyLib} (config : Config) (file : list string)
  (repository_name : option string)
  (relevant_sections : list (option string * list string))
  (relevant_section : list string) :
  inner_while config file repository_name relevant_sections relevant_section
  = let (line, file') := _get_next_line file in
    match (if truthy line then line else None) with
    | Some current =>
        if matches (branches_info_end_pattern config) current then
          outer_while config file' repository_name
            (dict_set key_eqb repository_name relevant_section relevant_sections) []
        else
          inner_while config file' repository_name relevant_sections
            (relevant_section ++ [current])
    | None => while_else repository_name relevant_sections
    end.
Proof.
  destruct file as [|raw file']; cbn [inner_while _get_next_line]; [reflexivity|].
  now destruct (truthy (Some (strip raw))).
Qed.

Lemma general_while_next `{PyLib} (config : Config) (file : list string)
  (dry_run_infos : list event) :
  general_while config file dry_run_infos
  = let (line, file') := _get_next_line file in
    match (if truthy line then line else None) with
    | Some current =>
        match re_match (dry_run_info_pattern_general config) current with
        | Some m =>
            match group m "repository_name", group m "branch_name", group m "info" with
            | Some repository_name, Some branch_name, Some info =>
                general_while config file'
                  (dry_run_infos ++ [(repository_name, branch_name, info)])
            | _, _, _ => Raises no_such_group
            end
        | None => general_while config file' dry_run_infos
        end
    | None => Returns dry_run_infos
    end.
Proof.
  destruct file as [|raw file']; cbn [general_while _get_next_line]; [reflexivity|].
  destruct (truthy (Some (strip raw))); [|reflexivity].
  destruct (re_match _ (strip raw)) as [m|]; [|reflexivity].
  destruct (group m "repository_name"); [|reflexivity].
  destruct (group m "branch_name"); reflexivity.
Qed.

(** ** The classifier *)

Lemma any_match_existsb `{PyLib} (p : pattern) (infos : list string) :
  any_match p infos <-> existsb (matches p) infos = true.
Proof.
  unfold any_match. symmetry. apply existsb_exists.
Qed.

Lemma not_any_match_existsb `{PyLib} (p : pattern) (infos : list string) :
  ~ any_match p infos -> existsb (matches p) infos = false.
Proof.
  intros Hno. destruct (existsb (matches p) infos) eqn:E; [|reflexivity].
  exfalso. apply Hno. now apply any_match_existsb.
Qed.

Lemma any_match_nonempty `{PyLib} (p : pattern) (infos : list string) :
  any_match p infos -> Nat.eqb (List.length infos) 0 = false.
Proof.
  intros [info [Hin _]]. destruct infos; [destruct Hin | reflexivity].
Qed.

Lemma nonempty_length {A : Type} (l : list A) :
  l <> [] -> Nat.eqb (List.length l) 0 = false.
Proof.
  destruct l; [congruence | reflexivity].
Qed.

Lemma append_assoc (a b c : string) : (a ++ b) ++ c = a ++ (b ++ c).
Proof.
  induction a as [|x a IH]; simpl; [reflexivity | now rewrite IH].
Qed.

Lemma get_dry_run_info_loop_spec (repository_name branch_name : string)
  (dry_run_infos : list event) (result : list string) :
  get_dry_run_info_loop repository_name branch_name dry_run_infos result
  = (result ++ events_for repository_name branch_name dry_run_infos)%list.
Proof.
  revert result.
  induction dry_run_infos as [|[[repository branch] info] rest IH]; intros result; simpl.
  - now rewrite app_nil_r.
  - destruct info as [text|]; [|destruct repository, branch; apply IH].
    destruct repository as [r|], branch as [b|]; simpl; try apply IH.
    + destruct (String.eqb r repository_name && String.eqb b branch_name)%bool;
        rewrite IH; [now rewrite <- app_assoc | reflexivity].
    + rewrite andb_false_r. apply IH.
Qed.

Lemma get_dry_run_info_spec (repository_name branch_name : string)
  (dry_run_infos : list event) :
  _get_dry_run_info repository_name branch_name dry_run_infos
  = events_for repository_name branch_name dry_run_infos.
Proof.
  unfold _get_dry_run_info. now rewrite get_dry_run_info_loop_spec.
Qed.

(** C1.  The drilldown of the code [done]: no info line gives UNCHANGED
    with an empty detail; otherwise a line matching the updated-branch
    pattern gives UPDATED, else one matching the created-branch pattern
    gives NEW, else one matching the committed-files pattern gives
    UNCHANGED, else the state is UNKNOWN and the detail is all the info
    lines, in their order, joined with [<br>].  Lines matching both the
    updated and the created patterns give UPDATED, not NEW.
    [_determine_pr_status] applies this drilldown to the info lines of the
    events of the branch when the code is [done]. *)
Theorem done_drilldown_cases `{PyLib} (config : Config) (dry_run_info : list string) :
  let updated := any_match (updated_branch_pattern config) dry_run_info in
  let created := any_match (created_branch_pattern config) dry_run_info in
  let committed := any_match (commited_files_pattern config) dry_run_info in
  let result := _done_state_drilldown config dry_run_info in
  (dry_run_info = [] -> result = (UNCHANGED_PR, ""))
  /\ (updated -> result = (UPDATED_PR, ""))
  /\ (~ updated -> created -> result = (NEW_PR, ""))
  /\ (~ updated -> ~ created -> committed -> result = (UNCHANGED_PR, ""))
  /\ (dry_run_info <> [] -> ~ updated -> ~ created -> ~ committed ->
      result = (UNKNOWN_PR, String.concat "<br>" dry_run_info))
  /\ (updated -> created -> fst result = UPDATED_PR /\ fst result <> NEW_PR)
  /\ (forall (repository_name branch_name : string) (dry_run_infos : list event),
        dry_run_info = events_for repository_name branch_name dry_run_infos ->
        _determine_pr_status "done" repository_name branch_name config dry_run_infos
        = result).
Proof.
  cbv zeta. unfold _done_state_drilldown.
  split; [|split; [|split; [|split; [|split; [|split]]]]].
  - intros ->. reflexivity.
  - intros Hu. rewrite (any_match_nonempty _ _ Hu).
    apply any_match_existsb in Hu. now rewrite Hu.
  - intros Hnu Hc. rewrite (any_match_nonempty _ _ Hc).
    rewrite (not_any_match_existsb _ _ Hnu).
    apply any_match_existsb in Hc. now rewrite Hc.
  - intros Hnu Hnc Hm. rewrite (any_match_nonempty _ _ Hm).
    rewrite (not_any_match_existsb _ _ Hnu), (not_any_match_existsb _ _ Hnc).
    apply any_match_existsb in Hm. now rewrite Hm.
  - intros Hne Hnu Hnc Hnm. rewrite (nonempty_length _ Hne).
    now rewrite (not_any_match_existsb _ _ Hnu), (not_any_match_existsb _ _ Hnc),
      (not_any_match_existsb _ _ Hnm).
  - intros Hu _. rewrite (any_match_nonempty _ _ Hu).
    apply any_match_existsb in Hu. rewrite Hu. split; [reflexivity | discriminate].
  - intros repository_name branch_name dry_run_infos ->.
    unfold _determine_pr_status. simpl. now rewrite get_dry_run_info_spec.
Qed.

(** Lines that match both the updated and the created pattern give UPDATED;
    lines that match none of the three patterns give UNKNOWN with the lines
    joined, also through [_determine_pr_status], which leaves out the events
    of another branch and the events without info. *)
Lemma done_drilldown_cases_witness :
  fst (@_done_state_drilldown mini (sample_config 2) ["created branch"; "updated branch"])
  = UPDATED_PR
  /\ @_done_state_drilldown mini (sample_config 2) ["someInfo"; "someOtherInfo"]
     = (UNKNOWN_PR, "someInfo<br>someOtherInfo")
  /\ @_determine_pr_status mini "done" "test_repo" "test_branch" (sample_config 2)
       [(Some "test_repo", Some "test_branch", Some "someInfo");
        (Some "test_repo", Some "other_branch", Some "updated branch");
        (Some "test_repo", Some "test_branch", None);
        (Some "test_repo", Some "test_branch", Some "someOtherInfo")]
     = (UNKNOWN_PR, "someInfo<br>someOtherInfo").
Proof.
  assert (Hnone : forall p : rx,
            @matches mini p "someInfo" = false ->
            @matches mini p "someOtherInfo" = false ->
            ~ @any_match mini p ["someInfo"; "someOtherInfo"]).
  { intros p H1 H2 (info & Hin & Hm). simpl in Hin.
    destruct Hin as [<-|[<-|[]]]; congruence. }
  pose proof (@done_drilldown_cases mini (sample_config 2)
                ["someInfo"; "someOtherInfo"]) as Hcases.
  cbv zeta in Hcases.
  destruct Hcases as (_ & _ & _ & _ & Hunknown & _ & Hdone).
  split; [|split].
  - apply (@done_drilldown_cases mini (sample_config 2)
             ["created branch"; "updated branch"]).
    + exists "updated branch". split; [simpl; auto | reflexivity].
    + exists "created branch". split; [simpl; auto | reflexivity].
  - apply Hunknown; [discriminate | apply Hnone; reflexivity ..].
  - rewrite (Hdone "test_repo" "test_branch"); [|reflexivity].
    apply Hunknown; [discriminate | apply Hnone; reflexivity ..].
Defined.

Lemma events_for_In (repository branch info : string) (events : list event) :
  In info (events_for repository branch events)
  <-> In (Some repository, Some branch, Some info) events.
Proof.
  unfold events_for. rewrite in_flat_map. split.
  - intros [[[r b] i] [Hin Hx]].
    destruct r as [r|], b as [b|], i as [i|]; try destruct Hx.
    destruct (String.eqb_spec r repository), (String.eqb_spec b branch);
      simpl in Hx; try destruct Hx; try contradiction.
    now subst.
  - intros Hin. exists (Some repository, Some branch, Some info). split; [assumption|].
    rewrite !String.eqb_refl. simpl. now left.
Qed.

(** C6.  On the code [error] the state is ERROR and the detail is the
    [info] of all the events whose repository and branch are exactly the
    given ones and whose [info] is present, in the order of the events,
    joined with [<br>]; every such event contributes. *)
Theorem error_detail_all_events `{PyLib} (repository_name branch_name : string)
  (config : Config) (dry_run_infos : list event) :
  _determine_pr_status "error" repository_name branch_name config dry_run_infos
  = (ERROR_PR, String.concat "<br>" (events_for repository_name branch_name dry_run_infos))
  /\ (forall info : string,
        In info (events_for repository_name branch_name dry_run_infos)
        <-> In (Some repository_name, Some branch_name, Some info) dry_run_infos).
Proof.
  split.
  - unfold _determine_pr_status. simpl. unfold br_join.
    now rewrite get_dry_run_info_spec.
  - intros info. apply events_for_In.
Qed.

(** C9.  A result code outside the table gives UNKNOWN, with a detail that
    starts with the marker [Unknown PR state] and goes on, after a [<br>],
    with the info lines joined with [<br>]: the [info] of the events whose
    repository and branch are the given ones and whose [info] is present,
    in the order of the events, and of no other event. *)
Theorem unknown_code_detail `{PyLib} (pr_result repository_name branch_name : string)
  (config : Config) (dry_run_infos : list event) :
  ~ In pr_result recognized_codes ->
  _determine_pr_status pr_result repository_name branch_name config dry_run_infos
  = (UNKNOWN_PR,
     "Unknown PR state" ++ "<br>"
     ++ String.concat "<br>" (events_for repository_name branch_name dry_run_infos))
  /\ (forall info : string,
        In info (events_for repository_name branch_name dry_run_infos)
        <-> In (Some repository_name, Some branch_name, Some info) dry_run_infos).
Proof.
  intros Hnot. split; [|intros info; apply events_for_In].
  unfold _determine_pr_status.
  repeat match goal with
  | |- context [String.eqb pr_result ?code] =>
      destruct (String.eqb_spec pr_result code) as [->|_];
      [exfalso; apply Hnot; unfold recognized_codes; simpl; tauto|]
  end.
  unfold br_join. now rewrite get_dry_run_info_spec.
Qed.

(** The events of the test of the classifier, among events of another
    repository, of another branch and without info: only the two info
    lines of the branch are in the detail. *)
Lemma unknown_code_detail_witness :
  @_determine_pr_status mini "someWeirdStatus" "test_repo" "test_branch" (sample_config 0)
    [(Some "other_repo", Some "test_branch", Some "created");
     (Some "test_repo", Some "test_branch", Some "updated");
     (Some "test_repo", Some "test_branch", None);
     (Some "test_repo", Some "other_branch", Some "committed");
     (Some "test_repo", Some "test_branch", Some "someOtherInfo");
     (None, None, Some "someLine")]
  = (UNKNOWN_PR, "Unknown PR state<br>updated<br>someOtherInfo").
Proof.
  apply (@unknown_code_detail mini "someWeirdStatus").
  unfold recognized_codes. simpl. intuition discriminate.
Defined.

(** ** The autoclosed-event extractor *)

Lemma skip_lines_end (n : nat) : skip_lines n None [] = (None, []).
Proof.
  induction n as [|n IH]; simpl; [reflexivity | exact IH].
Qed.

(** Skipping [n] lines from the marker line lands on the line [n]
    positions forward and leaves the file [n] lines shorter. *)
Lemma skip_lines_offset (n : nat) (line : string) (file : list string) :
  skip_lines n (Some line) file = (offset_line line file n, skipn n file).
Proof.
  revert line file. induction n as [|n IH]; intros line file.
  - reflexivity.
  - destruct file as [|raw rest]; simpl.
    + rewrite skip_lines_end. unfold offset_line. simpl.
      now destruct n.
    + rewrite IH. reflexivity.
Qed.

(** One turn of the loop on a marker line. *)
Lemma autoclosed_at_marker `{PyLib} (fuel : nat) (config : Config) (line : string)
  (file : list string) (result : list (option string * option string))
  (m : Match) (repository_name : option string) :
  truthy (Some line) = true ->
  re_match (dry_run_info_pattern_autoclosed config) line = Some m ->
  group m "repository_name" = Some repository_name ->
  autoclosed_while (S fuel) config (Some line) file result
  = let offset := dry_run_info_autoclosed_pr_title_line_number config in
    match offset_line line file (Z.to_nat offset) with
    | None => Some (Raises (AutoclosedOffsetMissingError offset))
    | Some title_line =>
        match re_match (dry_run_info_autoclosed_pr_title_pattern config) title_line with
        | None => Some (Raises (AutoclosedTitleNotFoundError offset title_line))
        | Some m' =>
            match group m' "pr_title" with
            | None => Some (Raises no_such_group)
            | Some pr_title =>
                autoclosed_while fuel config (Some title_line)
                  (skipn (Z.to_nat offset) file)
                  (result ++ [(repository_name, pr_title)])
            end
        end
    end.
Proof.
  intros Htruthy Hm Hrepo. cbn [autoclosed_while].
  rewrite Htruthy, Hm, Hrepo, skip_lines_offset.
  destruct (offset_line line file _) as [title_line|]; reflexivity.
Qed.


Lemma autoclosed_stop `{PyLib} (fuel : nat) (config : Config) (line : option string)
  (file : list string) (result : list (option string * option string)) :
  truthy line = false ->
  autoclosed_while (S fuel) config line file result = Some (Returns result).
Proof.
  intros Hfalsy. cbn [autoclosed_while]. now rewrite Hfalsy.
Qed.

Lemma autoclosed_no_marker `{PyLib} (fuel : nat) (config : Config) (line : string)
  (file : list string) (result : list (option string * option string)) :
  truthy (Some line) = true ->
  re_match (dry_run_info_pattern_autoclosed config) line = None ->
  autoclosed_while (S fuel) config (Some line) file result
  = autoclosed_while fuel config (fst (_get_next_line file)) (snd (_get_next_line file))
      result.
Proof.
  intros Htruthy Hm. cbn [autoclosed_while]. rewrite Htruthy, Hm.
  now destruct (_get_next_line file).
Qed.

Lemma autoclosed_marker_no_group `{PyLib} (fuel : nat) (config : Config) (line : string)
  (file : list string) (result : list (option string * option string)) (m : Match) :
  truthy (Some line) = true ->
  re_match (dry_run_info_pattern_autoclosed config) line = Some m ->
  group m "repository_name" = None ->
  autoclosed_while (S fuel) config (Some line) file result = Some (Raises no_such_group).
Proof.
  intros Htruthy Hm Hg. cbn [autoclosed_while]. now rewrite Htruthy, Hm, Hg.
Qed.

(** With an offset of at least 1 every turn of the loop reads a line or is
    the last one: the loop ends, and two more units of fuel than the file
    has lines are enough. *)
Lemma autoclosed_while_ends `{PyLib} (config : Config) :
  (1 <= dry_run_info_autoclosed_pr_title_line_number config)%Z ->
  forall (fuel : nat) (line : option string) (file : list string)
         (result : list (option string * option string)),
  (truthy line = false /\ 1 <= fuel) \/ List.length file + 1 < fuel ->
  autoclosed_while fuel config line file result <> None.
Proof.
  intros Hoffset. induction fuel as [|fuel IH]; intros line file result Hfuel.
  - destruct Hfuel as [[_ Hfuel] | Hfuel]; lia.
  - destruct (truthy line) eqn:Htruthy;
      [|rewrite autoclosed_stop by assumption; discriminate].
    destruct Hfuel as [[Hfalsy _] | Hlen]; [congruence|].
    destruct line as [current|]; [|discriminate].
    destruct (re_match (dry_run_info_pattern_autoclosed config) current) as [m|] eqn:Hm.
    + destruct (group m "repository_name") as [repository_name|] eqn:Hg;
        [|rewrite (autoclosed_marker_no_group _ _ _ _ _ m) by assumption; discriminate].
      rewrite (autoclosed_at_marker _ _ _ _ _ m repository_name) by assumption.
      cbv zeta.
      destruct (offset_line current file _) as [title_line|] eqn:Htitle; [|discriminate].
      destruct (re_match _ title_line) as [m'|]; [|discriminate].
      destruct (group m' "pr_title"); [|discriminate].
      apply IH. right. rewrite length_skipn.
      assert (Z.to_nat (dry_run_info_autoclosed_pr_title_line_number config)
              < List.length (current :: map strip file))
        by (apply nth_error_Some; unfold offset_line in Htitle; congruence).
      cbn [List.length] in *. rewrite length_map in *. lia.
    + rewrite autoclosed_no_marker by assumption.
      destruct file as [|raw file']; cbn [_get_next_line fst snd].
      * apply IH. left. split; [reflexivity | cbn [List.length] in Hlen; lia].
      * apply IH. right. cbn [List.length] in Hlen. lia.
Qed.

Lemma autoclosed_extractor_returns `{PyLib} (config : Config) (file : list string) :
  (1 <= dry_run_info_autoclosed_pr_title_line_number config)%Z ->
  exists out,
    _extract_and_process_autoclosed_dry_run_infos (List.length file + 2) file config
    = Some out.
Proof.
  intros Hoffset. unfold _extract_and_process_autoclosed_dry_run_infos.
  destruct (_get_next_line file) as [line file'] eqn:Hnext.
  destruct (autoclosed_while _ config line file' []) as [out|] eqn:Hrun;
    [now exists out|].
  exfalso. revert Hrun. apply autoclosed_while_ends; [assumption|].
  destruct file as [|raw rest]; cbn [_get_next_line] in Hnext;
    injection Hnext as <- <-; cbn [List.length].
  - left. split; [reflexivity | lia].
  - right. lia.
Qed.

(** With an offset below 1 a marker line that also matches the title
    pattern is its own title line, and the loop never leaves it. *)
Lemma autoclosed_offset_zero_loops `{PyLib} (config : Config) (line : string)
  (m m' : Match) (repository_name pr_title : option string) :
  (dry_run_info_autoclosed_pr_title_line_number config <= 0)%Z ->
  truthy (Some line) = true ->
  re_match (dry_run_info_pattern_autoclosed config) line = Some m ->
  group m "repository_name" = Some repository_name ->
  re_match (dry_run_info_autoclosed_pr_title_pattern config) line = Some m' ->
  group m' "pr_title" = Some pr_title ->
  forall (fuel : nat) (file : list string)
         (result : list (option string * option string)),
  autoclosed_while fuel config (Some line) file result = None.
Proof.
  intros Hoffset Htruthy Hm Hg Hm' Hg'.
  induction fuel as [|fuel IH]; intros file result; [reflexivity|].
  rewrite (autoclosed_at_marker _ _ _ _ _ m repository_name) by assumption.
  cbv zeta.
  replace (Z.to_nat (dry_run_info_autoclosed_pr_title_line_number config)) with 0 by lia.
  unfold offset_line. cbn [nth_error skipn]. rewrite Hm', Hg'. apply IH.
Qed.

(** C3.  On a marker match the extractor advances exactly as many lines as
    the configured offset and tests the line it lands on against the title
    pattern: the line that many positions forward of the marker line.  With
    offset 0 that line is the marker line itself; the line immediately
    after the marker line is the one tested with offset 1. *)
Theorem autoclosed_title_line `{PyLib} (config : Config) (line : string)
  (file : list string) :
  let offset := dry_run_info_autoclosed_pr_title_line_number config in
  skip_lines (Z.to_nat offset) (Some line) file
  = (nth_error (line :: map strip file) (Z.to_nat offset), skipn (Z.to_nat offset) file)
  /\ (forall (fuel : nat) (result : list (option string * option string))
             (m : Match) (repository_name : option string),
        truthy (Some line) = true ->
        re_match (dry_run_info_pattern_autoclosed config) line = Some m ->
        group m "repository_name" = Some repository_name ->
        autoclosed_while (S fuel) config (Some line) file result
        = match nth_error (line :: map strip file) (Z.to_nat offset) with
          | None => Some (Raises (AutoclosedOffsetMissingError offset))
          | Some title_line =>
              match re_match (dry_run_info_autoclosed_pr_title_pattern config) title_line with
              | None => Some (Raises (AutoclosedTitleNotFoundError offset title_line))
              | Some m' =>
                  match group m' "pr_title" with
                  | None => Some (Raises no_such_group)
                  | Some pr_title =>
                      autoclosed_while fuel config (Some title_line)
                        (skipn (Z.to_nat offset) file)
                        (result ++ [(repository_name, pr_title)])
                  end
              end
          end)
  /\ (offset = 0%Z ->
      nth_error (line :: map strip file) (Z.to_nat offset) = Some line)
  /\ (offset = 1%Z ->
      nth_error (line :: map strip file) (Z.to_nat offset)
      = option_map strip (hd_error file)).
Proof.
  cbv zeta. split; [|split; [|split]].
  - apply skip_lines_offset.
  - intros fuel result m repository_name Htruthy Hm Hrepo.
    now rewrite (autoclosed_at_marker fuel config line file result m repository_name).
  - intros ->. reflexivity.
  - intros ->. simpl. now destruct file.
Qed.

Lemma autoclosed_title_line_witness :
  @autoclosed_while mini 3 (sample_config 1) (Some "autoclosed repo=R")
    (raw_lines ["title=T"]) []
  = Some (Returns [(Some "R", Some "T")]).
Proof.
  destruct (@autoclosed_title_line mini (sample_config 1) "autoclosed repo=R"
              (raw_lines ["title=T"])) as (_ & Hstep & _).
  erewrite Hstep; reflexivity.
Defined.



(** With offset 0 the title is looked for on the marker line, not on the
    line after it: the line after the marker matches the title pattern,
    and the extractor fails on the marker line all the same. *)
Lemma offset_zero_tests_marker_line :
  matches (dry_run_info_autoclosed_pr_title_pattern (sample_config 0)) "title=T" = true
  /\ fst (skip_lines (Z.to_nat 0) (Some "autoclosed repo=R") (raw_lines ["title=T"]))
     <> Some "title=T"
  /\ @_extract_and_process_autoclosed_dry_run_infos mini 5 marker_then_title_log
       (sample_config 0)
     = Some (Raises (AutoclosedTitleNotFoundError 0 "autoclosed repo=R")).
Proof.
  split; [reflexivity | split; [discriminate | reflexivity]].
Qed.

(** ** The dry-run event index *)

(** The event list only grows at its end. *)
Lemma general_while_extends `{PyLib} (config : Config) (file : list string) :
  forall dry_run_infos res : list event,
  general_while config file dry_run_infos = Returns res ->
  exists more, res = (dry_run_infos ++ more)%list.
Proof.
  induction file as [|raw file IH]; intros dry_run_infos res Hrun;
    cbn [general_while] in Hrun.
  - injection Hrun as <-. exists []. now rewrite app_nil_r.
  - destruct (truthy (Some (strip raw))).
    + destruct (re_match _ (strip raw)) as [m|]; [|now apply IH].
      destruct (group m "repository_name") as [r|]; [|discriminate].
      destruct (group m "branch_name") as [b|]; [|discriminate].
      destruct (group m "info") as [i|]; [|discriminate].
      apply IH in Hrun. destruct Hrun as [more ->].
      exists ((r, b, i) :: more). now rewrite <- app_assoc.
    + injection Hrun as <-. exists []. now rewrite app_nil_r.
Qed.

(** C8.  A line that matches the general-info pattern is recorded as an
    event whose repository, branch and info are the three named groups of
    the match; a group that took no part in the match leaves its field
    absent.  The pattern has to define the three groups: when one of them
    is missing from the pattern the scan fails at the matching line. *)
Theorem general_info_captures `{PyLib} (config : Config) (raw : string)
  (file : list string) (dry_run_infos : list event) (m : Match) :
  truthy (Some (strip raw)) = true ->
  re_match (dry_run_info_pattern_general config) (strip raw) = Some m ->
  (forall repository_name branch_name info : option string,
     group m "repository_name" = Some repository_name ->
     group m "branch_name" = Some branch_name ->
     group m "info" = Some info ->
     general_while config (raw :: file) dry_run_infos
     = general_while config file
         (dry_run_infos ++ [(repository_name, branch_name, info)])
     /\ forall res, general_while config (raw :: file) dry_run_infos = Returns res ->
          exists more,
            res = (dry_run_infos ++ (repository_name, branch_name, info) :: more)%list)
  /\ (group m "repository_name" = None \/ group m "branch_name" = None
      \/ group m "info" = None ->
      general_while config (raw :: file) dry_run_infos = Raises no_such_group).
Proof.
  intros Htruthy Hm. cbn [general_while]. rewrite Htruthy, Hm. split.
  - intros repository_name branch_name info -> -> ->. split; [reflexivity|].
    intros res Hrun. apply general_while_extends in Hrun.
    destruct Hrun as [more ->]. exists more. now rewrite <- app_assoc.
  - intros [-> | [Hb | Hi]]; [reflexivity | |].
    + destruct (group m "repository_name"); [now rewrite Hb | reflexivity].
    + destruct (group m "repository_name"); [|reflexivity].
      destruct (group m "branch_name"); [now rewrite Hi | reflexivity].
Qed.

Lemma general_info_captures_witness :
  @_extract_general_dry_run_infos mini (raw_lines ["DRY-RUN repo=r1 branch=b1"])
    (sample_config 2)
  = Returns [(Some "r1", Some "b1", None)].
Proof.
  unfold _extract_general_dry_run_infos, raw_lines. cbn [map].
  erewrite (proj1 (proj1 (@general_info_captures mini (sample_config 2)
                            ("DRY-RUN repo=r1 branch=b1" ++ newline) [] [] _
                            eq_refl eq_refl)
                     (Some "r1") (Some "b1") None eq_refl eq_refl eq_refl)).
  reflexivity.
Defined.

(** A general-info pattern without the [info] group: the line matches, and
    the scan fails instead of recording an event without info. *)
Lemma missing_group_fails :
  matches (dry_run_info_pattern_general no_info_config) "DRY-RUN repo=r1 branch=b1" = true
  /\ @_extract_general_dry_run_infos mini (raw_lines ["DRY-RUN repo=r1 branch=b1"])
       no_info_config
     = Raises no_such_group
  /\ @_extract_general_dry_run_infos mini (raw_lines ["DRY-RUN repo=r1 branch=b1"])
       no_info_config
     <> Returns [(Some "r1", Some "b1", None)].
Proof.
  split; [reflexivity | split; [reflexivity | discriminate]].
Qed.

(** ** Empty lines *)

Lemma truthy_blank (blank : string) : strip blank = "" -> truthy (Some (strip blank)) = false.
Proof.
  intros ->. reflexivity.
Qed.

(** Both loops of the section scan stop at an empty line. *)
Lemma section_loops_stop_at_blank `{PyLib} (config : Config) (blank : string)
  (after : list string) :
  strip blank = "" ->
  forall before : list string,
  (forall repository_name relevant_sections relevant_section,
     outer_while config (before ++ blank :: after) repository_name relevant_sections
       relevant_section
     = outer_while config before repository_name relevant_sections relevant_section)
  /\ (forall repository_name relevant_sections relevant_section,
        inner_while config (before ++ blank :: after) repository_name relevant_sections
          relevant_section
        = inner_while config before repository_name relevant_sections relevant_section).
Proof.
  intros Hblank. induction before as [|raw before [IHouter IHinner]].
  - split; intros; cbn [app outer_while inner_while];
      now rewrite (truthy_blank _ Hblank).
  - split; intros repository_name relevant_sections relevant_section;
      cbn [app outer_while inner_while].
    + destruct (truthy (Some (strip raw))); [|reflexivity].
      destruct (matches _ (strip raw)); [|apply IHouter].
      destruct (_extract_repository_name _ _); [apply IHinner | reflexivity].
    + destruct (truthy (Some (strip raw))); [|reflexivity].
      destruct (matches _ (strip raw)); [apply IHouter | apply IHinner].
Qed.

Lemma general_while_stops_at_blank `{PyLib} (config : Config) (blank : string)
  (after : list string) :
  strip blank = "" ->
  forall (before : list string) (dry_run_infos : list event),
  general_while config (before ++ blank :: after) dry_run_infos
  = general_while config before dry_run_infos.
Proof.
  intros Hblank. induction before as [|raw before IH]; intros dry_run_infos;
    cbn [app general_while].
  - now rewrite (truthy_blank _ Hblank).
  - destruct (truthy (Some (strip raw))); [|reflexivity].
    destruct (re_match _ (strip raw)) as [m|]; [|apply IH].
    destruct (group m "repository_name"); [|reflexivity].
    destruct (group m "branch_name"); [|reflexivity].
    destruct (group m "info"); [apply IH | reflexivity].
Qed.


Lemma titles_within_skipn `{PyLib} (config : Config) (k : nat) (lines : list string) :
  titles_within config lines -> titles_within config (skipn k lines).
Proof.
  intros Hw i raw Hnth Hm. rewrite nth_error_skipn in Hnth.
  specialize (Hw _ _ Hnth Hm). rewrite length_skipn.
  assert (k + i < List.length lines) by (apply nth_error_Some; congruence).
  lia.
Qed.



Lemma offset_line_before (line : string) (before rest : list string) (n : nat) :
  n <= List.length before ->
  offset_line line (before ++ rest) n = offset_line line before n.
Proof.
  intros Hn. unfold offset_line. rewrite map_app.
  change (line :: map strip before ++ map strip rest)%list
    with ((line :: map strip before) ++ map strip rest)%list.
  apply nth_error_app1. simpl. rewrite length_map. lia.
Qed.

Lemma offset_line_at_end (line : string) (before : list string) (blank : string)
  (rest : list string) :
  offset_line line (before ++ blank :: rest) (S (List.length before)) = Some (strip blank).
Proof.
  unfold offset_line. cbn [nth_error]. rewrite map_app. cbn [map].
  rewrite nth_error_app2 by (rewrite length_map; lia).
  rewrite length_map, Nat.sub_diag. reflexivity.
Qed.

Lemma offset_line_current (line : string) (before : list string) (n : nat) (title_line : string) :
  offset_line line before n = Some title_line ->
  (n = 0 /\ title_line = line)
  \/ exists raw, nth_error before (pred n) = Some raw /\ title_line = strip raw /\ 0 < n.
Proof.
  unfold offset_line. destruct n as [|n]; cbn [nth_error pred].
  - intros [= <-]. now left.
  - rewrite nth_error_map. destruct (nth_error before n) as [raw|]; [|discriminate].
    intros [= <-]. right. exists raw. repeat split. lia.
Qed.

Lemma autoclosed_while_agree `{PyLib} (config : Config) (blank : string)
  (after after' : list string) :
  strip blank = "" ->
  forall (fuel : nat) (line : option string) (file file' : list string)
         (result : list (option string * option string)),
  agree_up_to_blank config blank after after' line file file' ->
  autoclosed_while fuel config line file result
  = autoclosed_while fuel config line file' result.
Proof.
  intros Hblank. induction fuel as [|fuel IH]; intros line file file' result Hagree;
    [reflexivity|].
  destruct (truthy line) eqn:Htruthy; [|now rewrite !autoclosed_stop].
  destruct Hagree as [Hfalsy | (before & -> & -> & Hwithin & Hcurrent)]; [congruence|].
  destruct line as [current|]; [|discriminate].
  set (n := Z.to_nat (dry_run_info_autoclosed_pr_title_line_number config)) in *.
  destruct (re_match (dry_run_info_pattern_autoclosed config) current) as [m|] eqn:Hm.
  - assert (Hn : n <= S (List.length before)).
    { apply (Hcurrent current eq_refl). unfold matches. now rewrite Hm. }
    destruct (group m "repository_name") as [repository_name|] eqn:Hg;
      [|now rewrite !(autoclosed_marker_no_group _ _ _ _ _ m)].
    rewrite !(autoclosed_at_marker _ _ _ _ _ m repository_name) by assumption.
    cbv zeta. fold n.
    destruct (Nat.eq_dec n (S (List.length before))) as [Hend | Hinside].
    + rewrite Hend, !offset_line_at_end, Hblank.
      destruct (re_match _ "") as [m'|]; [|reflexivity].
      destruct (group m' "pr_title"); [|reflexivity].
      apply IH. now left.
    + assert (Hle : n <= List.length before) by lia.
      rewrite !(offset_line_before _ _ _ _ Hle).
      destruct (offset_line current before n) as [title_line|] eqn:Htitle; [|reflexivity].
      destruct (re_match _ title_line) as [m'|]; [|reflexivity].
      destruct (group m' "pr_title"); [|reflexivity].
      apply IH. right. exists (skipn n before).
      rewrite !skipn_app.
      replace (n - List.length before) with 0 by lia. cbn [skipn].
      repeat split; [now apply titles_within_skipn|].
      intros current' [= <-] Hmatch. rewrite length_skipn.
      destruct (offset_line_current _ _ _ _ Htitle) as [[Hzero _] | (raw & Hraw & -> & Hpos)].
      * lia.
      * specialize (Hwithin _ _ Hraw Hmatch). fold n in Hwithin. lia.
  - rewrite !autoclosed_no_marker by assumption.
    destruct before as [|raw before]; cbn [app _get_next_line fst snd].
    + apply IH. left. now apply truthy_blank.
    + apply IH. right. exists before. repeat split.
      * intros i raw' Hnth Hmatch.
        specialize (Hwithin (S i) raw' Hnth Hmatch). simpl in Hwithin. lia.
      * intros current' [= <-] Hmatch.
        specialize (Hwithin 0 raw eq_refl Hmatch). simpl in Hwithin. fold n in Hwithin.
        lia.
Qed.

(** C10.  The section scan and the event index stop at a line that is
    empty once stripped: what they return is what they return on the log
    cut before that line.  So does the autoclosed extractor when no marker
    line stands fewer lines before the empty line than the configured
    offset: nothing after the empty line changes its result. *)
Theorem scans_stop_at_blank_line `{PyLib} (config : Config) (before : list string)
  (blank : string) (after after' : list string) :
  strip blank = "" ->
  _find_branches_lists (before ++ blank :: after) config
  = _find_branches_lists before config
  /\ _extract_general_dry_run_infos (before ++ blank :: after) config
     = _extract_general_dry_run_infos before config
  /\ (titles_within config before ->
      forall fuel : nat,
        _extract_and_process_autoclosed_dry_run_infos fuel (before ++ blank :: after) config
        = _extract_and_process_autoclosed_dry_run_infos fuel (before ++ blank :: after')
            config).
Proof.
  intros Hblank. split; [|split].
  - unfold _find_branches_lists.
    destruct (section_loops_stop_at_blank config blank after Hblank before) as [-> _].
    destruct before as [|raw before]; cbn [app _get_next_line]; [|reflexivity].
    now rewrite (truthy_blank _ Hblank).
  - unfold _extract_general_dry_run_infos.
    now apply general_while_stops_at_blank.
  - intros Hwithin fuel. unfold _extract_and_process_autoclosed_dry_run_infos.
    destruct before as [|raw before]; cbn [app _get_next_line].
    + apply (autoclosed_while_agree config blank after after' Hblank).
      left. now apply truthy_blank.
    + apply (autoclosed_while_agree config blank after after' Hblank).
      right. exists before. repeat split.
      * intros i raw' Hnth Hmatch.
        specialize (Hwithin (S i) raw' Hnth Hmatch). simpl in Hwithin. lia.
      * intros current [= <-] Hmatch.
        specialize (Hwithin 0 raw eq_refl Hmatch). simpl in Hwithin. lia.
Qed.

Lemma scans_stop_at_blank_line_witness :
  let config := sample_config 1 in
  let before :=
    raw_lines ["START repo: A"; "x"; "END"; "DRY-RUN repo=r1 branch=b1 info=hi";
               "autoclosed repo=R"; "title=T"] in
  let after := raw_lines ["START repo: B"; "END"; "autoclosed repo=S"; "title=U"] in
  @_find_branches_lists mini (before ++ newline :: after) config
  = @_find_branches_lists mini before config
  /\ @_extract_general_dry_run_infos mini (before ++ newline :: after) config
     = @_extract_general_dry_run_infos mini before config
  /\ @_extract_and_process_autoclosed_dry_run_infos mini 10 (before ++ newline :: after)
       config
     = @_extract_and_process_autoclosed_dry_run_infos mini 10 (before ++ [newline]) config.
Proof.
  intros config before after.
  destruct (@scans_stop_at_blank_line mini config before newline after [] eq_refl)
    as (Hsections & Hevents & Hautoclosed).
  split; [exact Hsections | split; [exact Hevents | apply Hautoclosed]].
  intros i raw Hnth Hmatch.
  do 6 (destruct i as [|i];
        [injection Hnth as <-; vm_compute in Hmatch;
         first [discriminate Hmatch | vm_compute; lia] |]).
  destruct i; discriminate Hnth.
Defined.

(** An empty line between a marker and its title line is skipped with the
    other lines of the offset: the second record is found after it, and
    the log cut after the empty line has another result. *)
Lemma blank_inside_offset_window :
  nth_error (map strip blank_in_window_log) 1 = Some ""
  /\ @_extract_and_process_autoclosed_dry_run_infos mini 10 blank_in_window_log
       (sample_config 2)
     = Some (Returns [(Some "R", Some "T"); (Some "S", Some "U")])
  /\ @_extract_and_process_autoclosed_dry_run_infos mini 10 (firstn 2 blank_in_window_log)
       (sample_config 2)
     = Some (Raises (AutoclosedOffsetMissingError 2)).
Proof.
  split; [reflexivity | split; reflexivity].
Qed.

(** ** The section scan *)

Lemma key_eqb_eq (a b : option string) : key_eqb a b = true <-> a = b.
Proof.
  destruct a as [x|], b as [y|]; simpl; try (split; congruence).
  rewrite String.eqb_eq. split; congruence.
Qed.

Lemma dict_keys_set {V : Type} (k r : option string) (v : V)
  (d : list (option string * V)) :
  In k (dict_keys (dict_set key_eqb r v d)) <-> k = r \/ In k (dict_keys d).
Proof.
  unfold dict_keys. induction d as [|[k' v'] d IH]; simpl.
  - intuition congruence.
  - destruct (key_eqb k' r) eqn:E; simpl.
    + apply key_eqb_eq in E. subst k'. intuition congruence.
    + rewrite IH. intuition congruence.
Qed.

Lemma while_else_returns (repository_name : option string)
  (relevant_sections res : list (option string * list string)) :
  while_else repository_name relevant_sections = Returns res -> res = relevant_sections.
Proof.
  unfold while_else. destruct repository_name as [name|]; [|congruence].
  destruct (dict_mem key_eqb (Some name) relevant_sections); congruence.
Qed.

Lemma while_else_raises (repository_name : option string)
  (relevant_sections : list (option string * list string)) (e : exn) :
  while_else repository_name relevant_sections = Raises e ->
  exists name, e = UnterminatedSectionError name.
Proof.
  unfold while_else. destruct repository_name as [name|]; [|discriminate].
  destruct (dict_mem key_eqb (Some name) relevant_sections); [discriminate|].
  intros [= <-]. now exists name.
Qed.

Section SectionScan.
Context `{PyLib} (config : Config).


Lemma closes_split (lines : list string) (repository found : option string) :
  closes config lines repository found ->
  exists body closing rest,
    lines = (body ++ closing :: rest)%list
    /\ Forall (fun l => ~ is_end config l) body
    /\ is_end config closing
    /\ (found = repository \/ sealed config rest found).
Proof.
  induction 1 as [closing rest repository found Hend Hfound
                 | line lines repository found Hbody _ IH].
  - exists [], closing, rest. repeat split; auto.
  - destruct IH as (body & closing & rest & -> & Hall & Hend & Hfound).
    exists (line :: body), closing, rest. repeat split; auto.
Qed.

Lemma closes_join (body : list string) (closing : string) (rest : list string)
  (repository found : option string) :
  Forall (fun l => ~ is_end config l) body ->
  is_end config closing ->
  found = repository \/ sealed config rest found ->
  closes config (body ++ closing :: rest) repository found.
Proof.
  intros Hall Hend Hfound. induction Hall as [|line body Hline _ IH]; simpl.
  - now apply closes_end.
  - now apply closes_body.
Qed.

Lemma sealed_nil (found : option string) : ~ sealed config [] found.
Proof.
  intros Hsealed. remember [] as lines eqn:Hlines.
  induction Hsealed as [lines repository rest Hat | | lines other rest repository Hat _ _];
    try discriminate; destruct Hat; discriminate.
Qed.

Lemma closes_nil (repository found : option string) : ~ closes config [] repository found.
Proof.
  intros Hcloses. inversion Hcloses.
Qed.

Lemma sealed_at_start (line : string) (lines : list string)
  (repository found : option string) :
  is_start config line ->
  _extract_repository_name line (repository_name_pattern config) = Returns repository ->
  sealed config (line :: lines) found <-> closes config lines repository found.
Proof.
  intros Hstart Hname. split.
  - intros Hsealed. inversion Hsealed as [ls r rest Hat | l ls r Hnot | ls other rest r Hat Hrest];
      subst.
    + inversion Hat as [l r' body closing rest' _ Hname' Hall Hend]; subst.
      rewrite Hname in Hname'. injection Hname' as <-.
      apply closes_join; auto.
    + contradiction.
    + inversion Hat as [l r' body closing rest' _ Hname' Hall Hend]; subst.
      rewrite Hname in Hname'. injection Hname' as <-.
      apply closes_join; auto.
  - intros Hcloses.
    destruct (closes_split _ _ _ Hcloses) as (body & closing & rest & -> & Hall & Hend & Hfound).
    assert (Hat : section_at config (line :: body ++ closing :: rest) repository rest)
      by now constructor.
    destruct Hfound as [-> | Hlater].
    + now apply sealed_here with (rest := rest).
    + now apply sealed_after_section with (other := repository) (rest := rest).
Qed.

Lemma sealed_not_start (line : string) (lines : list string) (found : option string) :
  ~ is_start config line ->
  sealed config (line :: lines) found <-> sealed config lines found.
Proof.
  intros Hnot. split.
  - intros Hsealed. inversion Hsealed as [ls r rest Hat | l ls r _ Hrest | ls other rest r Hat _];
      subst; try assumption; inversion Hat; subst; contradiction.
  - now apply sealed_after_line.
Qed.

Lemma closes_at_end (line : string) (lines : list string)
  (repository found : option string) :
  is_end config line ->
  closes config (line :: lines) repository found
  <-> found = repository \/ sealed config lines found.
Proof.
  intros Hend. split.
  - intros Hcloses. inversion Hcloses; subst; [assumption | contradiction].
  - now apply closes_end.
Qed.

Lemma closes_not_end (line : string) (lines : list string)
  (repository found : option string) :
  ~ is_end config line ->
  closes config (line :: lines) repository found <-> closes config lines repository found.
Proof.
  intros Hnot. split.
  - intros Hcloses. inversion Hcloses; subst; [contradiction | assumption].
  - now apply closes_body.
Qed.

(** The keys the two loops add to [relevant_sections]. *)
Lemma section_loops_keys (file : list string) :
  (forall repository_name relevant_sections relevant_section res,
     outer_while config file repository_name relevant_sections relevant_section
     = Returns res ->
     forall found,
       In found (dict_keys res)
       <-> In found (dict_keys relevant_sections) \/ sealed config (visible file) found)
  /\ (forall repository_name relevant_sections relevant_section res,
        inner_while config file repository_name relevant_sections relevant_section
        = Returns res ->
        forall found,
          In found (dict_keys res)
          <-> In found (dict_keys relevant_sections)
              \/ closes config (visible file) repository_name found).
Proof.
  induction file as [|raw file [IHouter IHinner]].
  - split; intros repository_name relevant_sections relevant_section res Hrun found;
      cbn [outer_while inner_while visible] in *;
      apply while_else_returns in Hrun; subst res;
      [pose proof (sealed_nil found) | pose proof (closes_nil repository_name found)];
      tauto.
  - split; intros repository_name relevant_sections relevant_section res Hrun found;
      cbn [outer_while inner_while visible] in *.
    + destruct (truthy (Some (strip raw))).
      * destruct (matches (branches_info_start_pattern config) (strip raw)) eqn:Hstart.
        -- destruct (_extract_repository_name _ _) as [name|e] eqn:Hname; [|discriminate].
           rewrite (IHinner _ _ _ _ Hrun found).
           now rewrite (sealed_at_start _ _ name found Hstart Hname).
        -- rewrite (IHouter _ _ _ _ Hrun found).
           rewrite sealed_not_start; [reflexivity|].
           unfold is_start. now rewrite Hstart.
      * apply while_else_returns in Hrun. subst res.
        pose proof (sealed_nil found). tauto.
    + destruct (truthy (Some (strip raw))).
      * destruct (matches (branches_info_end_pattern config) (strip raw)) eqn:Hend.
        -- rewrite (IHouter _ _ _ _ Hrun found), dict_keys_set.
           rewrite (closes_at_end _ _ _ _ Hend). tauto.
        -- rewrite (IHinner _ _ _ _ Hrun found).
           rewrite closes_not_end; [reflexivity|].
           unfold is_end. now rewrite Hend.
      * apply while_else_returns in Hrun. subst res.
        pose proof (closes_nil repository_name found). tauto.
Qed.


Lemma extract_repository_name_raises (line : string) (e : exn) :
  _extract_repository_name line (repository_name_pattern config) = Raises e ->
  e = RepositoryNameError
  \/ (e = no_such_group
      /\ exists m, re_search (repository_name_pattern config) line = Some m
                   /\ group_index m 1 = None).
Proof.
  unfold _extract_repository_name.
  destruct (re_search _ line) as [m|]; [|intros [= <-]; now left].
  destruct (group_index m 1) eqn:Hgroup; [discriminate|].
  intros [= <-]. right. split; [reflexivity|]. now exists m.
Qed.

Lemma group_missing_later (raw : string) (file : list string) :
  truthy (Some (strip raw)) = true ->
  group_missing config file -> group_missing config (raw :: file).
Proof.
  intros Htruthy (line & m & Hin & Hrest). exists line, m.
  split; [|exact Hrest]. cbn [visible]. rewrite Htruthy. now right.
Qed.

(** An error found further down the file is an error of the file. *)
Ltac error_further_down IH Hrun :=
  destruct (IH _ _ _ _ Hrun) as [He | [He | [He Hmissing]]]; auto;
  right; right; split; [assumption|]; now apply group_missing_later.

(** The errors of the two loops. *)
Lemma section_loops_errors (file : list string) :
  (forall repository_name relevant_sections relevant_section e,
     outer_while config file repository_name relevant_sections relevant_section
     = Raises e ->
     e = RepositoryNameError \/ (exists name, e = UnterminatedSectionError name)
     \/ (e = no_such_group /\ group_missing config file))
  /\ (forall repository_name relevant_sections relevant_section e,
        inner_while config file repository_name relevant_sections relevant_section
        = Raises e ->
        e = RepositoryNameError \/ (exists name, e = UnterminatedSectionError name)
        \/ (e = no_such_group /\ group_missing config file)).
Proof.
  induction file as [|raw file [IHouter IHinner]].
  - split; intros repository_name relevant_sections relevant_section e Hrun;
      cbn [outer_while inner_while] in Hrun;
      apply while_else_raises in Hrun; auto.
  - split; intros repository_name relevant_sections relevant_section e Hrun;
      cbn [outer_while inner_while] in Hrun.
    + destruct (truthy (Some (strip raw))) eqn:Htruthy;
        [|apply while_else_raises in Hrun; auto].
      destruct (matches (branches_info_start_pattern config) (strip raw)) eqn:Hstart.
      * destruct (_extract_repository_name _ _) as [name|e'] eqn:Hname.
        -- error_further_down IHinner Hrun.
        -- injection Hrun as <-.
           destruct (extract_repository_name_raises _ _ Hname) as [He | [He [m [Hm Hg]]]];
             auto.
           right. right. split; [assumption|]. exists (strip raw), m.
           cbn [visible]. rewrite Htruthy. repeat split; auto. now left.
      * error_further_down IHouter Hrun.
    + destruct (truthy (Some (strip raw))) eqn:Htruthy;
        [|apply while_else_raises in Hrun; auto].
      destruct (matches (branches_info_end_pattern config) (strip raw)).
      * error_further_down IHouter Hrun.
      * error_further_down IHinner Hrun.
Qed.

End SectionScan.

(** C2.  The section scan returns a mapping whose keys are exactly the
    repository identifiers extracted at the start markers that have a
    matching end marker, among the lines before the first empty line; or
    it fails with the error of an empty log, of a repository name that
    cannot be extracted or of an unterminated section; or, when the
    repository-name pattern finds a match that has no first group on a start
    marker, it fails with the [IndexError] of that group.  These four errors
    differ from one another. *)
Theorem section_scan_outcomes `{PyLib} (config : Config) (file : list string) :
  match _find_branches_lists file config with
  | Returns sections =>
      forall repository,
        In repository (dict_keys sections) <-> sealed config (visible file) repository
  | Raises e =>
      e = EmptyLogError \/ e = RepositoryNameError
      \/ (exists name, e = UnterminatedSectionError name)
      \/ (e = no_such_group /\ group_missing config file)
  end
  /\ EmptyLogError <> RepositoryNameError
  /\ EmptyLogError <> no_such_group
  /\ RepositoryNameError <> no_such_group
  /\ forall name,
       UnterminatedSectionError name <> EmptyLogError
       /\ UnterminatedSectionError name <> RepositoryNameError
       /\ UnterminatedSectionError name <> no_such_group.
Proof.
  split; [|repeat split; discriminate].
  unfold _find_branches_lists.
  destruct (_get_next_line file) as [line file'].
  destruct (negb (truthy line)); [now left|].
  destruct (outer_while config file None [] []) as [sections|e] eqn:Hrun.
  - intros repository.
    rewrite (proj1 (section_loops_keys config file) _ _ _ _ Hrun repository).
    simpl. tauto.
  - right. now apply (proj1 (section_loops_errors config file) _ _ _ _ Hrun).
Qed.

(** The promise of the specification fails on two logs.  With the
    configuration of the tests the repository-name pattern has no group and
    the scan fails with an [IndexError].  With an empty line between two
    closed sections the scan returns the first section only. *)
Lemma section_scan_other_outcomes :
  ~ @sections_or_error mini test_config test_log (map strip test_log)
  /\ ~ @sections_or_error mini (sample_config 2) blank_between_sections_log
         (map strip blank_between_sections_log).
Proof.
  split; unfold sections_or_error.
  - assert (Hrun : @_find_branches_lists mini test_log test_config = Raises no_such_group)
      by reflexivity.
    rewrite Hrun. intros [He | [He | [name He]]]; discriminate He.
  - assert (Hrun : @_find_branches_lists mini blank_between_sections_log (sample_config 2)
                   = Returns [(Some "A", ["x"])]) by reflexivity.
    rewrite Hrun. intros Hkeys.
    assert (Hin : In (Some "B") (dict_keys [(Some "A", ["x"])])).
    { apply Hkeys.
      change (map strip blank_between_sections_log)
        with ("START repo: A" :: (["x"] ++ "END" :: [""; "START repo: B"; "y"; "END"]))%list.
      apply sealed_after_section with (other := Some "A")
                                      (rest := [""; "START repo: B"; "y"; "END"]).
      - apply section_at_intro; [reflexivity | reflexivity | | reflexivity].
        repeat constructor. discriminate.
      - apply sealed_after_line; [discriminate|].
        apply sealed_here with (rest := []).
        change ["START repo: B"; "y"; "END"]
          with ("START repo: B" :: (["y"] ++ "END" :: []))%list.
        apply section_at_intro; [reflexivity | reflexivity | | reflexivity].
        repeat constructor. discriminate. }
    simpl in Hin. destruct Hin as [Hin | []]. discriminate Hin.
Qed.

(** A section that is open when the lines run out: the error is raised
    unless a section of the same repository was closed before. *)
Lemma unterminated_section_outcome `{PyLib} (config : Config) (body : list string)
  (name : string) (relevant_sections : list (option string * list string)) :
  Forall (fun raw => truthy (Some (strip raw)) = true
                     /\ matches (branches_info_end_pattern config) (strip raw) = false)
         body ->
  forall relevant_section : list string,
  inner_while config body (Some name) relevant_sections relevant_section
  = if dict_mem key_eqb (Some name) relevant_sections
    then Returns relevant_sections
    else Raises (UnterminatedSectionError name).
Proof.
  induction 1 as [|raw body [Htruthy Hend] _ IH]; intros relevant_section;
    cbn [inner_while]; [reflexivity|].
  rewrite Htruthy, Hend. apply IH.
Qed.

(** C4.  A start marker for a repository whose earlier section was closed,
    and no end marker after it: the scan returns the earlier section and
    raises nothing. *)
Lemma reopened_section_not_reported :
  @matches mini (branches_info_start_pattern (sample_config 2)) "START repo: A" = true
  /\ @_extract_repository_name mini "START repo: A"
       (repository_name_pattern (sample_config 2))
     = Returns (Some "A")
  /\ @_find_branches_lists mini reopened_log (sample_config 2)
     = Returns [(Some "A", ["x"])]
  /\ @_find_branches_lists mini (skipn 3 reopened_log) (sample_config 2)
     = Raises (UnterminatedSectionError "A").
Proof.
  repeat split.
Qed.

(** ** The section decoder *)


Lemma sections_for_decoded `{PyLib} (timestamp_pattern : pattern)
  (relevant_sections : list (option string * list string))
  (decoded : list (list (string * pyvalue))) :
  Forall2 (decodes_to timestamp_pattern) relevant_sections decoded ->
  forall items : list pyvalue,
  sections_for relevant_sections timestamp_pattern items
  = Returns (items ++ map (fun sd => section_document (fst sd) (snd sd))
                          (combine relevant_sections decoded))%list.
Proof.
  induction 1 as [|[repository lines] entries sections decoded Hdec _ IH];
    intros items; cbn [sections_for combine map].
  - now rewrite app_nil_r.
  - unfold decodes_to in Hdec. cbn [snd] in Hdec. rewrite Hdec.
    cbn [with_repository]. rewrite IH, <- app_assoc. reflexivity.
Qed.

Lemma autoclosed_for_spelled_out `{PyLib}
  (autoclosed_branches : list (option string * option string)) :
  Forall spelled_out autoclosed_branches ->
  forall items : list pyvalue,
  autoclosed_for autoclosed_branches items
  = Returns (items ++ map record_document autoclosed_branches)%list.
Proof.
  induction 1 as [|[repository prTitle] records Hrec _ IH];
    intros items; cbn [autoclosed_for map].
  - now rewrite app_nil_r.
  - unfold spelled_out in Hrec. cbn [snd] in Hrec. rewrite Hrec.
    cbn [with_repository]. rewrite IH, <- app_assoc. reflexivity.
Qed.

(** The JSON reader on the text built for an autoclosed record. *)
Lemma read_string_plain (text rest : string) :
  json_plain text = true ->
  read_string (text ++ String (ascii_of_nat 34) rest) = Some (text, rest).
Proof.
  induction text as [|c text IH]; intros Hplain.
  - reflexivity.
  - cbn [json_plain] in Hplain. apply andb_true_iff in Hplain as [Hc Htext].
    unfold json_plain_char in Hc.
    apply andb_true_iff in Hc as [Hc Hctl]. apply andb_true_iff in Hc as [Hq Hb].
    apply negb_true_iff in Hq, Hb, Hctl.
    cbn [append read_string]. now rewrite Hq, Hb, Hctl, (IH Htext).
Qed.

Lemma read_autoclosed_json (fuel : nat) (prTitle : option string) :
  json_plain (str_or prTitle "N/A") = true ->
  read_value (S (S (S (S (S (S (S (S (S fuel))))))))) (autoclosed_json prTitle)
  = Some (PyDict (autoclosed_fields (str_or prTitle "N/A")), "").
Proof.
  intros Hplain. unfold autoclosed_json, quoted, dquote.
  rewrite !append_assoc. cbn [append]. cbn.
  rewrite (read_string_plain _ _ Hplain). reflexivity.
Qed.

(** For the JSON reader, the text built for a record decodes to the object
    it spells out as soon as the title stands for itself in a JSON
    string. *)
Lemma mini_spelled_out (record : option string * option string) :
  json_plain (str_or (snd record) "N/A") = true -> @spelled_out mini record.
Proof.
  intros Hplain. unfold spelled_out. cbn [json_loads mini]. unfold mini_json_loads.
  assert (Hfuel : exists fuel,
             S (String.length (autoclosed_json (snd record)))
             = S (S (S (S (S (S (S (S (S fuel))))))))).
  { unfold autoclosed_json, quoted, dquote. cbn [append String.length].
    eexists. reflexivity. }
  destruct Hfuel as [fuel ->].
  now rewrite (read_autoclosed_json fuel (snd record) Hplain).
Qed.

(** C7.  When the body of every section decodes, and the text built for
    every autoclosed record decodes to the object it spells out, the
    decoder returns the documents of the sections first, in the order of
    the mapping, and then one document for each autoclosed record, in the
    order of the records.  The document of a record has the result code
    [discarded], the title of the record, [N/A] when the title is absent or
    empty, and the repository of the record, [N/A] when it is absent or
    empty. *)
Theorem decoder_documents_order `{PyLib}
  (relevant_sections : list (option string * list string))
  (autoclosed_branches : list (option string * option string))
  (timestamp_pattern : pattern) (decoded : list (list (string * pyvalue))) :
  Forall2 (decodes_to timestamp_pattern) relevant_sections decoded ->
  Forall spelled_out autoclosed_branches ->
  _process_branches_lists relevant_sections autoclosed_branches timestamp_pattern
  = Returns
      (PyDict
         [("items",
           PyList
             (map (fun sd => section_document (fst sd) (snd sd))
                  (combine relevant_sections decoded)
              ++ map (fun record =>
                        PyDict
                          [("repository", PyStr (str_or (fst record) "N/A"));
                           ("branchesInformation",
                            PyList
                              [PyDict
                                 [("prTitle", PyStr (str_or (snd record) "N/A"));
                                  ("result", PyStr "discarded")]])])
                     autoclosed_branches)%list)])
  /\ str_or None "N/A" = "N/A"
  /\ str_or (Some "") "N/A" = "N/A"
  /\ forall s : string, s <> "" -> str_or (Some s) "N/A" = s.
Proof.
  intros Hsections Hrecords. split; [|split; [|split]]; try reflexivity.
  - unfold _process_branches_lists.
    rewrite (sections_for_decoded _ _ _ Hsections).
    rewrite (autoclosed_for_spelled_out _ Hrecords).
    reflexivity.
  - intros s Hs. destruct s; [congruence | reflexivity].
Qed.

Lemma decoder_documents_order_witness :
  @_process_branches_lists mini
    [(Some "A", ["TS " ++ quoted "branchesInformation" ++ ": ["; "TS ]"])%string]
    [(Some "R", Some "T"); (None, None)]
    (RLit "TS ")
  = Returns
      (PyDict
         [("items",
           PyList
             [PyDict [("repository", PyStr "A"); ("branchesInformation", PyList [])];
              autoclosed_document "R" "T";
              autoclosed_document "N/A" "N/A"])]).
Proof.
  apply (@decoder_documents_order mini
           [(Some "A", ["TS " ++ quoted "branchesInformation" ++ ": ["; "TS ]"])%string]
           [(Some "R", Some "T"); (None, None)]
           (RLit "TS ")
           [[("branchesInformation", PyList [])]]).
  - constructor; [reflexivity | constructor].
  - repeat (constructor; [apply mini_spelled_out; reflexivity|]). constructor.
Defined.

(** A record with an empty title gets the title [N/A], and a record whose
    title holds a double quote makes the decoder fail. *)
Lemma empty_title_and_quoted_title :
  @_process_branches_lists mini [] [(Some "R", Some "")] (RLit "TS ")
  = Returns (PyDict [("items", PyList [autoclosed_document "R" "N/A"])])
  /\ autoclosed_document "R" "N/A" <> autoclosed_document "R" ""
  /\ match @_process_branches_lists mini [] [(Some "R", Some ("a" ++ dquote ++ "b"))]
             (RLit "TS ") with
     | Raises (JSONDecodeError _) => True
     | _ => False
     end.
Proof.
  split; [reflexivity | split; [discriminate | exact I]].
Qed.

(** * Further properties *)

(** ** Lines and white space *)

Lemma lstrip_all_space (s : string) : lstrip s = "" <-> all_space s = true.
Proof.
  induction s as [|c s IH]; cbn [lstrip all_space]; [tauto|].
  destruct (is_space c); cbn [andb]; [exact IH | split; discriminate].
Qed.

Lemma rstrip_all_space (s : string) : rstrip s = "" <-> all_space s = true.
Proof.
  induction s as [|c s IH]; cbn [rstrip all_space]; [tauto|].
  destruct (rstrip s) as [|d r].
  - destruct (is_space c); cbn [andb]; [|split; discriminate].
    split; intros _; [now apply IH | reflexivity].
  - split; [discriminate|]. intros Hall. apply andb_true_iff in Hall as [_ Hall].
    apply IH in Hall. discriminate Hall.
Qed.

(** What [lstrip] leaves is empty or opens with a character that is no
    white space. *)
Lemma lstrip_head (s : string) :
  lstrip s = "" \/ exists c t, lstrip s = String c t /\ is_space c = false.
Proof.
  induction s as [|c s IH]; cbn [lstrip]; [now left|].
  destruct (is_space c) eqn:Hc; [exact IH | right; now exists c, s].
Qed.

(** X1.  The line [_get_next_line] returns is falsy, so that it ends the
    loop that reads it, exactly when the raw line holds white space only
    (the empty line included). *)
Theorem blank_line_criterion (raw : string) (rest : list string) :
  truthy (fst (_get_next_line (raw :: rest))) = false <-> all_space raw = true.
Proof.
  cbn [_get_next_line fst]. unfold strip.
  rewrite <- lstrip_all_space.
  split.
  - intros Hfalsy.
    assert (Hr : rstrip (lstrip raw) = "")
      by (destruct (rstrip (lstrip raw)); [reflexivity | discriminate Hfalsy]).
    apply rstrip_all_space in Hr.
    destruct (lstrip_head raw) as [He | (c & t & He & Hc)]; [exact He|].
    rewrite He in Hr. cbn [all_space] in Hr. rewrite Hc in Hr. discriminate Hr.
  - intros ->. reflexivity.
Qed.

Lemma rstrip_idempotent (s : string) : rstrip (rstrip s) = rstrip s.
Proof.
  induction s as [|c s IH]; [reflexivity|]. cbn [rstrip].
  destruct (rstrip s) as [|d r] eqn:Hr.
  - destruct (is_space c) eqn:Hc; [reflexivity|]. cbn [rstrip]. now rewrite Hc.
  - cbn [rstrip]. cbn [rstrip] in IH. now rewrite IH.
Qed.

Lemma lstrip_rstrip_head (c : ascii) (t : string) :
  is_space c = false -> lstrip (rstrip (String c t)) = rstrip (String c t).
Proof.
  intros Hc. cbn [rstrip]. destruct (rstrip t); [rewrite Hc|]; cbn [lstrip];
    now rewrite Hc.
Qed.

(** X2.  A line that [_get_next_line] has returned is unchanged by another
    [strip], and it neither starts nor ends with white space. *)
Theorem strip_normal (s : string) :
  strip (strip s) = strip s
  /\ lstrip (strip s) = strip s
  /\ rstrip (strip s) = strip s.
Proof.
  assert (Hl : lstrip (strip s) = strip s).
  { unfold strip. destruct (lstrip_head s) as [-> | (c & t & -> & Hc)];
      [reflexivity | now apply lstrip_rstrip_head]. }
  assert (Hr : rstrip (strip s) = strip s) by apply rstrip_idempotent.
  repeat split; try assumption.
  unfold strip at 1. now rewrite Hl, Hr.
Qed.

(** ** The configuration *)

Lemma starts_with_append (old rest : string) : starts_with old (old ++ rest) = true.
Proof.
  induction old as [|c old IH]; cbn [append starts_with]; [reflexivity|].
  now rewrite Ascii.eqb_refl, IH.
Qed.

Lemma replace_from_skip (passed rest old new : string) :
  replace_from (String.length passed) old new (passed ++ rest)
  = replace_from 0 old new rest.
Proof.
  induction passed as [|c passed IH]; cbn [append String.length];
    [reflexivity|].
  cbn [replace_from]. exact IH.
Qed.

Lemma replace_from_absent (old new s : string) :
  occurs old s = false -> replace_from 0 old new s = s.
Proof.
  induction s as [|c s IH]; [reflexivity|]. cbn [occurs replace_from].
  intros Hno. apply orb_false_iff in Hno as [Hhere Hlater].
  rewrite Hhere. now rewrite (IH Hlater).
Qed.

Lemma insert_after_each_empty (s : string) : insert_after_each "" s = s.
Proof.
  induction s as [|c s IH]; cbn [insert_after_each append]; [reflexivity|].
  now rewrite IH.
Qed.

Lemma str_replace_kept (placeholder base text : string) :
  kept placeholder base text -> str_replace text placeholder base = text.
Proof.
  intros [[-> ->] | Hno]; unfold str_replace.
  - cbn [append]. apply insert_after_each_empty.
  - destruct placeholder as [|c placeholder]; [|now apply replace_from_absent].
    destruct text; discriminate Hno.
Qed.

(** X3.  When the placeholder occurs in none of the ten pattern texts, or
    when the placeholder and its expansion are both empty (the
    configuration of the tests), [Config] holds the pattern texts as they
    were given, and the title offset as it was given. *)
Theorem config_without_placeholder `{PyLib} (compile : string -> pattern)
  (start_text end_text name_text base placeholder timestamp_text general_text
   autoclosed_text : string) (offset : Z)
  (title_text updated_text created_text commited_text : string) :
  Forall (kept placeholder base)
    [start_text; end_text; name_text; timestamp_text; general_text; autoclosed_text;
     title_text; updated_text; created_text; commited_text] ->
  Config__init__ compile start_text end_text name_text base placeholder timestamp_text
    general_text autoclosed_text offset title_text updated_text created_text commited_text
  = Build_Config _ (compile start_text) (compile end_text) (compile name_text)
      (compile timestamp_text) (compile general_text) (compile autoclosed_text) offset
      (compile title_text) (compile updated_text) (compile created_text)
      (compile commited_text).
Proof.
  intros Hkept. repeat rewrite Forall_cons_iff in Hkept.
  destruct Hkept as (H1 & H2 & H3 & H4 & H5 & H6 & H7 & H8 & H9 & H10 & _).
  unfold Config__init__. cbv zeta.
  now rewrite !str_replace_kept by assumption.
Qed.

(** The configuration of the test of [_read_config_file], read by an engine
    that takes every text as literal. *)
Lemma config_without_placeholder_witness :
  dry_run_info_autoclosed_pr_title_line_number
    (@Config__init__ mini RLit "start" "end" "repo" "123" "PLACEHOLDER" "timestamp"
       "dry_run" "autoclosed" 2 "autoclosed_prTitle" "updated" "created" "committed")
  = 2%Z
  /\ @Config__init__ mini RLit "start" "end" "repo" "123" "PLACEHOLDER" "timestamp"
       "dry_run" "autoclosed" 2 "autoclosed_prTitle" "updated" "created" "committed"
     = @Build_Config mini (RLit "start") (RLit "end") (RLit "repo") (RLit "timestamp")
         (RLit "dry_run") (RLit "autoclosed") 2 (RLit "autoclosed_prTitle")
         (RLit "updated") (RLit "created") (RLit "committed").
Proof.
  split; [reflexivity|].
  apply (@config_without_placeholder mini RLit).
  repeat (constructor; [right; reflexivity|]). constructor.
Defined.

(** X4.  The expansion of a non-empty placeholder is one pass from the
    left: where the placeholder starts its expansion is written and the
    reading goes on after the placeholder, so that the expansion itself is
    not read again; a character at which the placeholder does not start is
    copied. *)
Theorem placeholder_expansion (placeholder base rest : string) :
  placeholder <> "" ->
  str_replace (placeholder ++ rest) placeholder base
  = base ++ str_replace rest placeholder base
  /\ (forall c : ascii,
        starts_with placeholder (String c rest) = false ->
        str_replace (String c rest) placeholder base
        = String c (str_replace rest placeholder base))
  /\ str_replace "" placeholder base = "".
Proof.
  intros Hne. destruct placeholder as [|a placeholder]; [congruence|].
  unfold str_replace. split; [|split].
  - change (String a placeholder ++ rest) with (String a (placeholder ++ rest)).
    cbn [replace_from].
    change (String a (placeholder ++ rest)) with (String a placeholder ++ rest).
    rewrite starts_with_append. cbn [String.length Nat.sub].
    now rewrite Nat.sub_0_r, replace_from_skip.
  - intros c Hno. cbn [replace_from]. now rewrite Hno.
  - reflexivity.
Qed.

Lemma placeholder_expansion_witness :
  str_replace "PLACEHOLDER\s*" "PLACEHOLDER" "\[PLACEHOLDER\]" = "\[PLACEHOLDER\]\s*".
Proof.
  apply (placeholder_expansion "PLACEHOLDER" "\[PLACEHOLDER\]" "\s*"). discriminate.
Defined.

(** ** More on the section scan *)

Lemma visible_nil_first (file : list string) :
  visible file = [] <-> truthy (fst (_get_next_line file)) = false.
Proof.
  destruct file as [|raw rest]; cbn [visible _get_next_line fst]; [tauto|].
  destruct (truthy (Some (strip raw))); split; congruence.
Qed.

(** X5.  The section scan fails with the error of an empty log exactly
    when the log has no line or its first line holds white space only; a
    log that starts with any other line never gives this error. *)
Theorem empty_log_criterion `{PyLib} (config : Config) (file : list string) :
  _find_branches_lists file config = Raises EmptyLogError <-> visible file = [].
Proof.
  rewrite visible_nil_first. unfold _find_branches_lists.
  destruct (_get_next_line file) as [line file'] eqn:Hnext. cbn [fst].
  destruct (truthy line); cbn [negb]; [|tauto].
  split; [|discriminate].
  intros Hrun.
  destruct (proj1 (section_loops_errors config file) _ _ _ _ Hrun)
    as [He | [[name He] | [He _]]]; discriminate He.
Qed.

Lemma outer_while_no_start `{PyLib} (config : Config) (file : list string) :
  no_start_marker config file ->
  forall repository_name relevant_sections relevant_section,
  outer_while config file repository_name relevant_sections relevant_section
  = while_else repository_name relevant_sections.
Proof.
  unfold no_start_marker.
  induction file as [|raw file IH]; intros Hno repository_name relevant_sections
    relevant_section; cbn [outer_while]; [reflexivity|].
  cbn [visible] in Hno.
  destruct (truthy (Some (strip raw))); [|reflexivity].
  inversion Hno as [|? ? Hhere Hlater]; subst. rewrite Hhere. now apply IH.
Qed.

(** X6.  A log that has lines but no start marker is no error: the scan
    returns the empty mapping. *)
Theorem no_section_no_error `{PyLib} (config : Config) (file : list string) :
  visible file <> [] ->
  no_start_marker config file ->
  _find_branches_lists file config = Returns [].
Proof.
  intros Hlines Hno. unfold _find_branches_lists.
  destruct (_get_next_line file) as [line file'] eqn:Hnext.
  destruct (truthy line) eqn:Htruthy; cbn [negb].
  - now rewrite outer_while_no_start.
  - exfalso. apply Hlines. apply visible_nil_first. now rewrite Hnext.
Qed.

Lemma no_section_no_error_witness :
  @_find_branches_lists mini (raw_lines ["DRY-RUN repo=r1 branch=b1"; "END"])
    (sample_config 2)
  = Returns [].
Proof.
  apply (@no_section_no_error mini); [discriminate|].
  repeat constructor.
Defined.

Lemma inner_while_body `{PyLib} (config : Config) (body rest : list string)
  (repository_name : option string)
  (relevant_sections : list (option string * list string)) :
  Forall (body_line config) body ->
  forall relevant_section : list string,
  inner_while config (body ++ rest) repository_name relevant_sections relevant_section
  = inner_while config rest repository_name relevant_sections
      (relevant_section ++ map strip body).
Proof.
  induction 1 as [|raw body [Hseen Hend] _ IH]; intros relevant_section;
    cbn [app map].
  - now rewrite app_nil_r.
  - cbn [inner_while]. unfold seen in Hseen. rewrite Hseen, Hend, IH.
    now rewrite <- app_assoc.
Qed.

(** The scan of one section. *)
Lemma section_step `{PyLib} (config : Config) (b : section_block) (rest : list string)
  (repository_name : option string)
  (relevant_sections : list (option string * list string)) :
  well_formed_block config b ->
  outer_while config (block_text b ++ rest) repository_name relevant_sections []
  = outer_while config rest (block_repository b) (assign_block relevant_sections b) [].
Proof.
  intros (Hseen & Hstart & Hname & Hbody & Hseen' & Hend).
  unfold block_text, seen in *. cbn [app outer_while].
  rewrite Hseen, Hstart, Hname, <- app_assoc, (inner_while_body _ _ _ _ _ Hbody).
  cbn [app inner_while]. now rewrite Hseen', Hend.
Qed.

Lemma last_cons {A : Type} (x d : A) (l : list A) : last (x :: l) d = last l x.
Proof.
  revert x d. induction l as [|y l IH]; intros x d; [reflexivity|].
  change (last (x :: y :: l) d) with (last (y :: l) d). now rewrite !IH.
Qed.

Lemma sections_steps `{PyLib} (config : Config) (blocks : list section_block)
  (rest : list string) :
  Forall (well_formed_block config) blocks ->
  forall repository_name relevant_sections,
  outer_while config (flat_map block_text blocks ++ rest) repository_name
    relevant_sections []
  = outer_while config rest
      (last (map block_repository blocks) repository_name)
      (fold_left assign_block blocks relevant_sections) [].
Proof.
  induction 1 as [|b blocks Hb _ IH]; intros repository_name relevant_sections;
    [reflexivity|].
  cbn [flat_map]. rewrite <- app_assoc, (section_step _ _ _ _ _ Hb), IH.
  cbn [map fold_left]. now rewrite last_cons.
Qed.

Lemma dict_mem_set {V : Type} (k : option string) (v : V) (d : list (option string * V)) :
  dict_mem key_eqb k (dict_set key_eqb k v d) = true.
Proof.
  unfold dict_mem. induction d as [|[k' v'] d IH]; cbn [dict_set existsb fst].
  - now rewrite (proj2 (key_eqb_eq k k) eq_refl).
  - destruct (key_eqb k' k) eqn:E; cbn [existsb fst]; [|now rewrite E].
    now rewrite (proj2 (key_eqb_eq k k) eq_refl).
Qed.

Lemma dict_mem_set_other {V : Type} (k k' : option string) (v : V)
  (d : list (option string * V)) :
  dict_mem key_eqb k d = true -> dict_mem key_eqb k (dict_set key_eqb k' v d) = true.
Proof.
  unfold dict_mem. induction d as [|[k0 v0] d IH]; cbn [dict_set existsb fst];
    [discriminate|].
  intros Hmem. destruct (key_eqb k0 k') eqn:E; cbn [existsb fst].
  - apply key_eqb_eq in E. subst k0. exact Hmem.
  - apply orb_true_iff in Hmem as [-> | Hmem]; [reflexivity|].
    rewrite (IH Hmem). apply orb_true_r.
Qed.

Lemma while_else_member (repository_name : option string)
  (relevant_sections : list (option string * list string)) :
  dict_mem key_eqb repository_name relevant_sections = true ->
  while_else repository_name relevant_sections = Returns relevant_sections.
Proof.
  intros Hmem. unfold while_else. destruct repository_name; [|reflexivity].
  now rewrite Hmem.
Qed.

Lemma last_block_member (blocks : list section_block) :
  blocks <> [] ->
  forall (repository_name : option string)
         (relevant_sections : list (option string * list string)),
  dict_mem key_eqb (last (map block_repository blocks) repository_name)
    (fold_left assign_block blocks relevant_sections) = true.
Proof.
  induction blocks as [|b blocks IH]; [congruence|].
  intros _ repository_name relevant_sections. cbn [map fold_left].
  rewrite last_cons. destruct blocks as [|b' blocks].
  - cbn [map last fold_left]. apply dict_mem_set.
  - apply IH. discriminate.
Qed.

(** X7.  A log made of sections, each a start marker, body lines and an end
    marker, with no start marker after the last of them: the scan returns
    the mapping in which every section, in the order of the log, has
    assigned the stripped lines of its body to its repository. *)
Theorem sections_in_order `{PyLib} (config : Config) (blocks : list section_block)
  (rest : list string) :
  blocks <> [] ->
  Forall (well_formed_block config) blocks ->
  no_start_marker config rest ->
  _find_branches_lists (flat_map block_text blocks ++ rest) config
  = Returns (fold_left assign_block blocks []).
Proof.
  intros Hne Hblocks Hrest. unfold _find_branches_lists.
  destruct blocks as [|b blocks]; [congruence|].
  assert (Hfirst : truthy (fst (_get_next_line (flat_map block_text (b :: blocks) ++ rest)))
                   = true).
  { inversion Hblocks as [|? ? (Hseen & _) _]; subst. exact Hseen. }
  destruct (_get_next_line _) as [line file']. cbn [fst] in Hfirst.
  rewrite Hfirst. cbn [negb].
  rewrite (sections_steps _ _ _ Hblocks), (outer_while_no_start _ _ Hrest).
  apply while_else_member. apply last_block_member. discriminate.
Qed.

Lemma sections_in_order_witness :
  @_find_branches_lists mini
    (raw_lines ["START repo: A"; "x"; "END"; "START repo: B"; "y"; "START z"; "END"; "tail"])
    (sample_config 2)
  = Returns [(Some "A", ["x"]); (Some "B", ["y"; "START z"])].
Proof.
  apply (@sections_in_order mini (sample_config 2)
           [ {| start_line := "START repo: A" ++ newline; body_lines := raw_lines ["x"];
                end_line := "END" ++ newline; block_repository := Some "A" |};
             {| start_line := "START repo: B" ++ newline;
                body_lines := raw_lines ["y"; "START z"];
                end_line := "END" ++ newline; block_repository := Some "B" |} ]
           (raw_lines ["tail"])).
  - discriminate.
  - repeat constructor.
  - repeat constructor.
Defined.

(** X8.  Two sections one after the other.  When both are of the same
    repository the mapping keeps one entry for it, with the body of the
    second section: the later section replaces the earlier one, the bodies
    are not merged.  When they are of two repositories the mapping has the
    two entries in the order of the log. *)
Theorem later_section_replaces `{PyLib} (config : Config) (first second : section_block)
  (rest : list string) :
  well_formed_block config first ->
  well_formed_block config second ->
  no_start_marker config rest ->
  let result :=
    _find_branches_lists (block_text first ++ block_text second ++ rest) config in
  (block_repository first = block_repository second ->
   result = Returns [(block_repository second, map strip (body_lines second))])
  /\ (block_repository first <> block_repository second ->
      result = Returns [(block_repository first, map strip (body_lines first));
                        (block_repository second, map strip (body_lines second))]).
Proof.
  intros Hfirst Hsecond Hrest result.
  assert (Hrun : result
                 = while_else (block_repository second)
                     (assign_block (assign_block [] first) second)).
  { unfold result, _find_branches_lists.
    assert (Hline : truthy (fst (_get_next_line
                                   (block_text first ++ block_text second ++ rest)))
                    = true) by exact (proj1 Hfirst).
    destruct (_get_next_line _) as [line file']. cbn [fst] in Hline.
    rewrite Hline. cbn [negb].
    rewrite (section_step _ _ _ _ _ Hfirst), (section_step _ _ _ _ _ Hsecond).
    now apply outer_while_no_start. }
  rewrite Hrun. unfold assign_block.
  rewrite (while_else_member _ _ (dict_mem_set _ _ _)). cbn [dict_set]. split.
  - intros ->. now rewrite (proj2 (key_eqb_eq _ _) eq_refl).
  - intros Hdiff.
    destruct (key_eqb (block_repository first) (block_repository second)) eqn:E;
      [apply key_eqb_eq in E; contradiction | reflexivity].
Qed.

Lemma later_section_replaces_witness :
  @_find_branches_lists mini
    (raw_lines ["START repo: A"; "old"; "END"; "START repo: A"; "new"; "END"])
    (sample_config 2)
  = Returns [(Some "A", ["new"])].
Proof.
  apply (@later_section_replaces mini (sample_config 2)
           {| start_line := "START repo: A" ++ newline; body_lines := raw_lines ["old"];
              end_line := "END" ++ newline; block_repository := Some "A" |}
           {| start_line := "START repo: A" ++ newline; body_lines := raw_lines ["new"];
              end_line := "END" ++ newline; block_repository := Some "A" |}
           []).
  - repeat constructor.
  - repeat constructor.
  - constructor.
  - reflexivity.
Defined.

Lemma dict_set_keys_nodup {V : Type} (k : option string) (v : V)
  (d : list (option string * V)) :
  NoDup (dict_keys d) -> NoDup (dict_keys (dict_set key_eqb k v d)).
Proof.
  induction d as [|[k' v'] d IH]; cbn [dict_set dict_keys map fst]; intros Hnodup.
  - constructor; [intros [] | constructor].
  - inversion Hnodup as [|? ? Hnotin Hrest]; subst.
    destruct (key_eqb k' k) eqn:E; cbn [map fst].
    + apply key_eqb_eq in E. subst k'. now constructor.
    + constructor; [|now apply IH].
      intros Hin. apply (dict_keys_set k' k v d) in Hin.
      destruct Hin as [-> | Hin]; [|contradiction].
      now rewrite (proj2 (key_eqb_eq k k) eq_refl) in E.
Qed.

Lemma section_loops_nodup `{PyLib} (config : Config) (file : list string) :
  (forall repository_name relevant_sections relevant_section res,
     outer_while config file repository_name relevant_sections relevant_section
     = Returns res ->
     NoDup (dict_keys relevant_sections) -> NoDup (dict_keys res))
  /\ (forall repository_name relevant_sections relevant_section res,
        inner_while config file repository_name relevant_sections relevant_section
        = Returns res ->
        NoDup (dict_keys relevant_sections) -> NoDup (dict_keys res)).
Proof.
  induction file as [|raw file [IHouter IHinner]];
    (split; intros repository_name relevant_sections relevant_section res Hrun Hnodup;
     cbn [outer_while inner_while] in Hrun).
  - apply while_else_returns in Hrun. now subst.
  - apply while_else_returns in Hrun. now subst.
  - destruct (truthy (Some (strip raw)));
      [|apply while_else_returns in Hrun; now subst].
    destruct (matches _ (strip raw)); [|now apply (IHouter _ _ _ _ Hrun)].
    destruct (_extract_repository_name _ _); [|discriminate].
    now apply (IHinner _ _ _ _ Hrun).
  - destruct (truthy (Some (strip raw)));
      [|apply while_else_returns in Hrun; now subst].
    destruct (matches _ (strip raw)); [|now apply (IHinner _ _ _ _ Hrun)].
    apply (IHouter _ _ _ _ Hrun). now apply dict_set_keys_nodup.
Qed.

(** X9.  The mapping the scan returns has one entry for each repository:
    no repository identifier is a key twice, however often its sections
    recur in the log. *)
Theorem one_entry_per_repository `{PyLib} (config : Config) (file : list string)
  (sections : list (option string * list string)) :
  _find_branches_lists file config = Returns sections ->
  NoDup (dict_keys sections).
Proof.
  unfold _find_branches_lists. destruct (_get_next_line file) as [line file'].
  destruct (negb (truthy line)); [discriminate|].
  intros Hrun. apply (proj1 (section_loops_nodup config file) _ _ _ _ Hrun).
  constructor.
Qed.

Lemma one_entry_per_repository_witness :
  NoDup (dict_keys [(Some "A", ["z"]); (Some "B", ["y"])]).
Proof.
  apply (@one_entry_per_repository mini (sample_config 2)
           (raw_lines ["START repo: A"; "x"; "END"; "START repo: B"; "y"; "END";
                       "START repo: A"; "z"; "END"])).
  reflexivity.
Defined.

Lemma Forall_dict_set {V : Type} (P : option string * V -> Prop) (k : option string)
  (v : V) (d : list (option string * V)) :
  P (k, v) -> Forall P d -> Forall P (dict_set key_eqb k v d).
Proof.
  intros Hnew. induction 1 as [|[k' v'] d Hhead Hrest IH]; cbn [dict_set].
  - now repeat constructor.
  - destruct (key_eqb k' k); now constructor.
Qed.

Lemma section_loops_bodies `{PyLib} (config : Config) (P : string -> Prop)
  (file : list string) :
  (forall line, In line (visible file) ->
                matches (branches_info_end_pattern config) line = false -> P line) ->
  (forall repository_name relevant_sections relevant_section res,
     outer_while config file repository_name relevant_sections relevant_section
     = Returns res ->
     Forall (fun kv => Forall P (snd kv)) relevant_sections ->
     Forall P relevant_section ->
     Forall (fun kv => Forall P (snd kv)) res)
  /\ (forall repository_name relevant_sections relevant_section res,
        inner_while config file repository_name relevant_sections relevant_section
        = Returns res ->
        Forall (fun kv => Forall P (snd kv)) relevant_sections ->
        Forall P relevant_section ->
        Forall (fun kv => Forall P (snd kv)) res).
Proof.
  induction file as [|raw file IH]; intros Hlines;
    (split; intros repository_name relevant_sections relevant_section res Hrun Hall Hsec;
     cbn [outer_while inner_while] in Hrun).
  - apply while_else_returns in Hrun. now subst.
  - apply while_else_returns in Hrun. now subst.
  - cbn [visible] in Hlines.
    destruct (truthy (Some (strip raw)));
      [|apply while_else_returns in Hrun; now subst].
    destruct IH as [IHouter IHinner]; [intros line Hin; apply Hlines; now right|].
    destruct (matches _ (strip raw)); [|now apply (IHouter _ _ _ _ Hrun)].
    destruct (_extract_repository_name _ _); [|discriminate].
    now apply (IHinner _ _ _ _ Hrun).
  - cbn [visible] in Hlines.
    destruct (truthy (Some (strip raw)));
      [|apply while_else_returns in Hrun; now subst].
    destruct IH as [IHouter IHinner]; [intros line Hin; apply Hlines; now right|].
    destruct (matches (branches_info_end_pattern config) (strip raw)) eqn:Hend.
    + apply (IHouter _ _ _ _ Hrun); [|constructor].
      now apply Forall_dict_set.
    + apply (IHinner _ _ _ _ Hrun); [assumption|].
      apply Forall_app. split; [assumption|].
      constructor; [|constructor]. apply Hlines; [now left | assumption].
Qed.

Lemma visible_seen (file : list string) (line : string) :
  In line (visible file) -> truthy (Some line) = true /\ In line (map strip file).
Proof.
  induction file as [|raw file IH]; cbn [visible map]; [intros []|].
  destruct (truthy (Some (strip raw))) eqn:Htruthy; [|intros []].
  intros [<- | Hin]; [split; [assumption | now left]|].
  destruct (IH Hin) as [Hline Hin']. split; [assumption | now right].
Qed.

(** X10.  Every line of every body in the mapping is a stripped line of
    the log, is not empty, and is no end marker: the markers of a section
    are never part of its body. *)
Theorem bodies_hold_log_lines `{PyLib} (config : Config) (file : list string)
  (sections : list (option string * list string)) :
  _find_branches_lists file config = Returns sections ->
  forall (repository : option string) (body : list string) (line : string),
    In (repository, body) sections ->
    In line body ->
    In line (map strip file)
    /\ line <> ""
    /\ matches (branches_info_end_pattern config) line = false.
Proof.
  unfold _find_branches_lists. destruct (_get_next_line file) as [first file'].
  destruct (negb (truthy first)); [discriminate|].
  intros Hrun repository body line Hentry Hline.
  pose (P := fun l : string =>
               In l (visible file)
               /\ matches (branches_info_end_pattern config) l = false).
  assert (Hall : Forall (fun kv => Forall P (snd kv)) sections).
  { apply (proj1 (section_loops_bodies config P file (fun l Hin Hend => conj Hin Hend))
             _ _ _ _ Hrun); constructor. }
  rewrite Forall_forall in Hall. specialize (Hall _ Hentry). cbn [snd] in Hall.
  rewrite Forall_forall in Hall. destruct (Hall _ Hline) as [Hin Hend].
  destruct (visible_seen _ _ Hin) as [Hseen Hin'].
  repeat split; try assumption.
  intros ->. discriminate Hseen.
Qed.

Lemma bodies_hold_log_lines_witness :
  In "x" (map strip (raw_lines ["START repo: A"; "  x  "; "END"]))
  /\ "x" <> ""
  /\ @matches mini (branches_info_end_pattern (sample_config 2)) "x" = false.
Proof.
  apply (@bodies_hold_log_lines mini (sample_config 2)
           (raw_lines ["START repo: A"; "  x  "; "END"]) [(Some "A", ["x"])]
           eq_refl (Some "A") ["x"] "x"); now left.
Defined.

(** ** More on the event index *)

Lemma general_while_events `{PyLib} (config : Config) (file : list string) :
  Forall (exposes_groups config) (visible file) ->
  forall dry_run_infos : list event,
  general_while config file dry_run_infos
  = Returns (dry_run_infos ++ flat_map (events_of_line config) (visible file))%list.
Proof.
  induction file as [|raw file IH]; intros Hexposes dry_run_infos;
    cbn [general_while visible].
  - cbn [flat_map]. now rewrite app_nil_r.
  - cbn [visible] in Hexposes.
    destruct (truthy (Some (strip raw)));
      [|cbn [flat_map]; now rewrite app_nil_r].
    inversion Hexposes as [|? ? Hhere Hlater]; subst.
    cbn [flat_map]. unfold events_of_line at 1. unfold exposes_groups in Hhere.
    destruct (re_match _ (strip raw)) as [m|]; [|now apply IH].
    destruct (Hhere m eq_refl) as (r & b & i & -> & -> & ->).
    rewrite (IH Hlater). cbn [app]. now rewrite <- app_assoc.
Qed.

(** X11.  When the general-info pattern has its three named groups, the
    event index of a log is the list of the events of its matching lines,
    in the order of the log, up to the first empty line; lines that do not
    match add nothing, and the scan does not fail, be the log empty. *)
Theorem event_index_in_order `{PyLib} (config : Config) (file : list string) :
  Forall (exposes_groups config) (visible file) ->
  _extract_general_dry_run_infos file config
  = Returns (flat_map (events_of_line config) (visible file)).
Proof.
  intros Hexposes. unfold _extract_general_dry_run_infos.
  now rewrite general_while_events.
Qed.

Lemma event_index_in_order_witness :
  @_extract_general_dry_run_infos mini
    (raw_lines ["DRY-RUN repo=r1 branch=b1 info=first"; "noise";
                "DRY-RUN repo=r2 branch=b2"; "DRY-RUN repo=r1 branch=b1 info=second"])
    (sample_config 2)
  = Returns [(Some "r1", Some "b1", Some "first"); (Some "r2", Some "b2", None);
             (Some "r1", Some "b1", Some "second")].
Proof.
  apply (@event_index_in_order mini (sample_config 2)).
  repeat (constructor;
          [intros m Hm; vm_compute in Hm;
           first [discriminate Hm
                 | injection Hm as <-; repeat eexists; reflexivity]|]).
  constructor.
Defined.

Lemma general_while_error `{PyLib} (config : Config) (file : list string) :
  forall (dry_run_infos : list event) (e : exn),
  general_while config file dry_run_infos = Raises e ->
  e = no_such_group
  /\ exists (line : string) (m : Match),
       In line (visible file)
       /\ re_match (dry_run_info_pattern_general config) line = Some m
       /\ (group m "repository_name" = None \/ group m "branch_name" = None
           \/ group m "info" = None).
Proof.
  induction file as [|raw file IH]; intros dry_run_infos e Hrun;
    cbn [general_while visible] in *; [discriminate|].
  destruct (truthy (Some (strip raw))); [|discriminate].
  assert (Hlater : forall infos, general_while config file infos = Raises e ->
             e = no_such_group
             /\ exists line m,
                  In line (strip raw :: visible file)
                  /\ re_match (dry_run_info_pattern_general config) line = Some m
                  /\ (group m "repository_name" = None \/ group m "branch_name" = None
                      \/ group m "info" = None)).
  { intros infos Hlater. destruct (IH _ _ Hlater) as [He (line & m & Hin & Hrest)].
    split; [assumption|]. exists line, m. split; [now right | assumption]. }
  destruct (re_match _ (strip raw)) as [m|] eqn:Hm; [|now apply (Hlater dry_run_infos)].
  destruct (group m "repository_name") eqn:Hr;
    [|injection Hrun as <-; split; [reflexivity|]; exists (strip raw), m;
      repeat split; auto; now left].
  destruct (group m "branch_name") eqn:Hb;
    [|injection Hrun as <-; split; [reflexivity|]; exists (strip raw), m;
      repeat split; auto; now left].
  destruct (group m "info") eqn:Hi;
    [now apply (Hlater _ Hrun)
    |injection Hrun as <-; split; [reflexivity|]; exists (strip raw), m;
     repeat split; auto; now left].
Qed.

(** X12.  The event index raises nothing but the [IndexError] of a named
    group the pattern does not have, and raises it only at a line of the
    log that matches the pattern; an empty log is no error for it. *)
Theorem event_index_only_error `{PyLib} (config : Config) (file : list string) (e : exn) :
  _extract_general_dry_run_infos file config = Raises e ->
  e = no_such_group
  /\ exists (line : string) (m : Match),
       In line (visible file)
       /\ re_match (dry_run_info_pattern_general config) line = Some m
       /\ (group m "repository_name" = None \/ group m "branch_name" = None
           \/ group m "info" = None).
Proof.
  unfold _extract_general_dry_run_infos. apply general_while_error.
Qed.

Lemma event_index_only_error_witness :
  IndexError "no such group" = no_such_group
  /\ exists (line : string) (m : Match),
       In line (visible (raw_lines ["noise"; "DRY-RUN repo=r1 branch=b1"]))
       /\ @re_match mini (dry_run_info_pattern_general no_info_config) line = Some m
       /\ (group m "repository_name" = None \/ group m "branch_name" = None
           \/ group m "info" = None).
Proof.
  apply (@event_index_only_error mini no_info_config
           (raw_lines ["noise"; "DRY-RUN repo=r1 branch=b1"])).
  reflexivity.
Defined.

(** ** More on the autoclosed-event extractor *)

(** A loop that has ended within its fuel ends the same way with more. *)
Lemma autoclosed_while_more_fuel `{PyLib} (config : Config) :
  forall (fuel fuel' : nat) (line : option string) (file : list string)
         (result : list (option string * option string))
         (out : outcome (list (option string * option string))),
  autoclosed_while fuel config line file result = Some out ->
  fuel <= fuel' ->
  autoclosed_while fuel' config line file result = Some out.
Proof.
  induction fuel as [|fuel IH]; intros fuel' line file result out Hrun Hle;
    [discriminate|].
  destruct fuel' as [|fuel']; [lia|].
  cbn [autoclosed_while] in *.
  destruct (if truthy line then line else None) as [current|]; [|assumption].
  destruct (re_match (dry_run_info_pattern_autoclosed config) current) as [m|].
  - destruct (group m "repository_name"); [|assumption].
    destruct (skip_lines _ line file) as [line' file'].
    destruct line' as [title_line|]; [|assumption].
    destruct (re_match _ title_line) as [m'|]; [|assumption].
    destruct (group m' "pr_title"); [|assumption].
    apply (IH _ _ _ _ _ Hrun). lia.
  - destruct (_get_next_line file) as [line' file'].
    apply (IH _ _ _ _ _ Hrun). lia.
Qed.

(** X13.  With a title offset of at least 1 the autoclosed extractor ends
    on every log: it has one outcome, reached with two more turns of the
    loop than the log has lines and unchanged by any larger bound. *)
Theorem autoclosed_extractor_ends `{PyLib} (config : Config) (file : list string) :
  (1 <= dry_run_info_autoclosed_pr_title_line_number config)%Z ->
  exists out,
    forall fuel : nat,
      List.length file + 2 <= fuel ->
      _extract_and_process_autoclosed_dry_run_infos fuel file config = Some out.
Proof.
  intros Hoffset.
  destruct (autoclosed_extractor_returns config file Hoffset) as [out Hrun].
  exists out. intros fuel Hfuel.
  unfold _extract_and_process_autoclosed_dry_run_infos in *.
  destruct (_get_next_line file) as [line file'].
  now apply (autoclosed_while_more_fuel config _ _ _ _ _ _ Hrun).
Qed.

Lemma autoclosed_extractor_ends_witness :
  exists out,
    forall fuel : nat,
      List.length blank_in_window_log + 2 <= fuel ->
      @_extract_and_process_autoclosed_dry_run_infos mini fuel blank_in_window_log
        (sample_config 2)
      = Some out.
Proof.
  apply (@autoclosed_extractor_ends mini (sample_config 2) blank_in_window_log).
  cbn. lia.
Defined.

Lemma autoclosed_reaches_loop `{PyLib} (config : Config) (raw : string)
  (rest : list string) (m m' : Match) (repository_name pr_title : option string) :
  (dry_run_info_autoclosed_pr_title_line_number config <= 0)%Z ->
  seen raw ->
  re_match (dry_run_info_pattern_autoclosed config) (strip raw) = Some m ->
  group m "repository_name" = Some repository_name ->
  re_match (dry_run_info_autoclosed_pr_title_pattern config) (strip raw) = Some m' ->
  group m' "pr_title" = Some pr_title ->
  forall (before : list string) (current : string) (fuel : nat)
         (result : list (option string * option string)),
  truthy (Some current) = true ->
  re_match (dry_run_info_pattern_autoclosed config) current = None ->
  Forall (fun l => seen l
                   /\ re_match (dry_run_info_pattern_autoclosed config) (strip l) = None)
         before ->
  autoclosed_while fuel config (Some current) (before ++ raw :: rest) result = None.
Proof.
  intros Hoffset Hseen Hm Hg Hm' Hg'.
  induction before as [|next before IH]; intros current fuel result Htruthy Hno Hbefore;
    (destruct fuel as [|fuel]; [reflexivity|]);
    rewrite autoclosed_no_marker by assumption; cbn [app _get_next_line fst snd].
  - now apply (autoclosed_offset_zero_loops config (strip raw) m m' repository_name pr_title).
  - inversion Hbefore as [|? ? [Hnext Hnone] Hlater]; subst. now apply IH.
Qed.

(** X14.  With a title offset of 0 or less the extractor does not end on
    a log in which the first marker line also matches the title pattern:
    that line is taken as its own title line and is read as a marker again,
    whatever the number of turns allowed. *)
Theorem autoclosed_extractor_hangs `{PyLib} (config : Config) (before : list string)
  (raw : string) (rest : list string) (m m' : Match)
  (repository_name pr_title : option string) :
  (dry_run_info_autoclosed_pr_title_line_number config <= 0)%Z ->
  Forall (fun l => seen l
                   /\ re_match (dry_run_info_pattern_autoclosed config) (strip l) = None)
         before ->
  seen raw ->
  re_match (dry_run_info_pattern_autoclosed config) (strip raw) = Some m ->
  group m "repository_name" = Some repository_name ->
  re_match (dry_run_info_autoclosed_pr_title_pattern config) (strip raw) = Some m' ->
  group m' "pr_title" = Some pr_title ->
  forall fuel : nat,
    _extract_and_process_autoclosed_dry_run_infos fuel (before ++ raw :: rest) config
    = None.
Proof.
  intros Hoffset Hbefore Hseen Hm Hg Hm' Hg' fuel.
  unfold _extract_and_process_autoclosed_dry_run_infos.
  destruct before as [|first before]; cbn [app _get_next_line].
  - now apply (autoclosed_offset_zero_loops config (strip raw) m m' repository_name pr_title).
  - inversion Hbefore as [|? ? [Hfirst Hnone] Hlater]; subst.
    now apply (autoclosed_reaches_loop config raw rest m m' repository_name pr_title).
Qed.

Lemma autoclosed_extractor_hangs_witness :
  @_extract_and_process_autoclosed_dry_run_infos mini 50
    (raw_lines ["noise"; "closed repo1: Update x"; "more"]) (same_line_config 0)
  = None.
Proof.
  eapply (@autoclosed_extractor_hangs mini (same_line_config 0) (raw_lines ["noise"])
            ("closed repo1: Update x" ++ newline) (raw_lines ["more"])).
  - cbn. lia.
  - repeat constructor.
  - reflexivity.
  - reflexivity.
  - reflexivity.
  - reflexivity.
  - reflexivity.
Defined.

(** The loop on a file in which no line it sees is an autoclosed marker. *)
Lemma autoclosed_no_marker_run `{PyLib} (config : Config) (file : list string) :
  Forall (fun line => re_match (dry_run_info_pattern_autoclosed config) line = None)
         (visible file) ->
  forall (fuel : nat) (result : list (option string * option string)),
  List.length file < fuel ->
  autoclosed_while fuel config (fst (_get_next_line file)) (snd (_get_next_line file))
    result
  = Some (Returns result).
Proof.
  induction file as [|raw file IH]; intros Hno fuel result Hfuel;
    (destruct fuel as [|fuel]; [cbn [List.length] in Hfuel; lia|]);
    cbn [_get_next_line fst snd].
  - now apply autoclosed_stop.
  - cbn [visible] in Hno.
    destruct (truthy (Some (strip raw))) eqn:Htruthy; [|now apply autoclosed_stop].
    inversion Hno as [|? ? Hhere Hlater]; subst.
    rewrite autoclosed_no_marker by assumption.
    apply IH; [assumption|]. cbn [List.length] in Hfuel. lia.
Qed.

(** X15.  On a log without a marker line the autoclosed extractor returns
    the empty list, whatever the title offset; an empty log is no error for
    it. *)
Theorem no_marker_no_record `{PyLib} (config : Config) (file : list string) (fuel : nat) :
  Forall (fun line => re_match (dry_run_info_pattern_autoclosed config) line = None)
         (visible file) ->
  List.length file < fuel ->
  _extract_and_process_autoclosed_dry_run_infos fuel file config = Some (Returns []).
Proof.
  intros Hno Hfuel. unfold _extract_and_process_autoclosed_dry_run_infos.
  pose proof (autoclosed_no_marker_run config file Hno fuel [] Hfuel) as Hrun.
  now destruct (_get_next_line file).
Qed.

Lemma no_marker_no_record_witness :
  @_extract_and_process_autoclosed_dry_run_infos mini 4
    (raw_lines ["START repo: A"; "x"; "END"]) (sample_config 0)
  = Some (Returns []).
Proof.
  apply (@no_marker_no_record mini (sample_config 0)); [|cbn; lia].
  repeat constructor.
Defined.

Lemma offset_line_In (line : string) (file : list string) (n : nat) (title_line : string) :
  offset_line line file n = Some title_line ->
  title_line = line \/ In title_line (map strip file).
Proof.
  unfold offset_line. intros Hnth. apply nth_error_In in Hnth.
  destruct Hnth as [<- | Hin]; [now left | now right].
Qed.

Lemma skipn_In {A : Type} (n : nat) (l : list A) (x : A) : In x (skipn n l) -> In x l.
Proof.
  revert l. induction n as [|n IH]; intros l; cbn [skipn]; [tauto|].
  destruct l as [|y l]; [tauto|]. intros Hin. right. now apply IH.
Qed.

Lemma autoclosed_while_errors `{PyLib} (config : Config) (Q : string -> Prop) :
  forall (fuel : nat) (line : option string) (file : list string)
         (result : list (option string * option string)) (e : exn),
  (forall l, line = Some l -> Q l) ->
  (forall l, In l (map strip file) -> Q l) ->
  autoclosed_while fuel config line file result = Some (Raises e) ->
  let offset := dry_run_info_autoclosed_pr_title_line_number config in
  e = AutoclosedOffsetMissingError offset
  \/ (exists l, e = AutoclosedTitleNotFoundError offset l /\ Q l)
  \/ e = no_such_group.
Proof.
  induction fuel as [|fuel IH]; intros line file result e Hline Hfile Hrun;
    [discriminate|].
  destruct (truthy line) eqn:Htruthy;
    [|rewrite autoclosed_stop in Hrun by assumption; discriminate].
  destruct line as [current|]; [|discriminate].
  destruct (re_match (dry_run_info_pattern_autoclosed config) current) as [m|] eqn:Hm.
  - destruct (group m "repository_name") as [repository_name|] eqn:Hg;
      [|rewrite (autoclosed_marker_no_group _ _ _ _ _ m) in Hrun by assumption;
        injection Hrun as <-; now right; right].
    rewrite (autoclosed_at_marker _ _ _ _ _ m repository_name) in Hrun by assumption.
    cbv zeta in Hrun.
    destruct (offset_line current file _) as [title_line|] eqn:Htitle;
      [|injection Hrun as <-; now left].
    assert (HQ : Q title_line).
    { destruct (offset_line_In _ _ _ _ Htitle) as [-> | Hin]; auto. }
    destruct (re_match _ title_line) as [m'|];
      [|injection Hrun as <-; right; left; now exists title_line].
    destruct (group m' "pr_title");
      [|injection Hrun as <-; now right; right].
    eapply IH; [ | | exact Hrun].
    + now intros l [= <-].
    + intros l Hin. apply Hfile. rewrite in_map_iff in *.
      destruct Hin as (raw & Hraw & Hin). exists raw. split; [assumption|].
      now apply (skipn_In _ _ _ Hin).
  - rewrite autoclosed_no_marker in Hrun by assumption.
    eapply IH; [ | | exact Hrun].
    + destruct file as [|raw file']; cbn [_get_next_line fst]; [discriminate|].
      intros l [= <-]. apply Hfile. now left.
    + intros l Hin. apply Hfile.
      destruct file as [|raw file']; cbn [_get_next_line snd] in Hin; [assumption|].
      now right.
Qed.

(** X16.  The autoclosed extractor fails in three ways only: with the error
    of a missing title line, which names the configured offset; with the
    error of a title not found, which names the offset and carries a
    stripped line of the log; or with the [IndexError] of a named group the
    pattern does not have. *)
Theorem autoclosed_extractor_errors `{PyLib} (config : Config) (fuel : nat)
  (file : list string) (e : exn) :
  _extract_and_process_autoclosed_dry_run_infos fuel file config = Some (Raises e) ->
  let offset := dry_run_info_autoclosed_pr_title_line_number config in
  e = AutoclosedOffsetMissingError offset
  \/ (exists l, e = AutoclosedTitleNotFoundError offset l /\ In l (map strip file))
  \/ e = no_such_group.
Proof.
  unfold _extract_and_process_autoclosed_dry_run_infos.
  destruct file as [|raw file']; cbn [_get_next_line]; intros Hrun.
  - apply (autoclosed_while_errors config (fun l => In l (map strip [])) _ _ _ _ _)
      in Hrun; [assumption | discriminate | auto].
  - apply (autoclosed_while_errors config (fun l => In l (map strip (raw :: file')))
             _ _ _ _ _) in Hrun; [assumption | |].
    + intros l [= <-]. now left.
    + intros l Hin. now right.
Qed.

Lemma autoclosed_extractor_errors_witness :
  LogFileParsingError
    "pr title was not found 1 lines below the log entry matched by config.dry_run_info_pattern_autoclosed. Instead the following line was found: someLine"
  = AutoclosedOffsetMissingError 1
  \/ (exists l,
        LogFileParsingError
          "pr title was not found 1 lines below the log entry matched by config.dry_run_info_pattern_autoclosed. Instead the following line was found: someLine"
        = AutoclosedTitleNotFoundError 1 l
        /\ In l (map strip (raw_lines ["autoclosed repo=R"; "someLine"; "title=T"])))
  \/ LogFileParsingError
       "pr title was not found 1 lines below the log entry matched by config.dry_run_info_pattern_autoclosed. Instead the following line was found: someLine"
     = no_such_group.
Proof.
  apply (@autoclosed_extractor_errors mini (sample_config 1) 5
           (raw_lines ["autoclosed repo=R"; "someLine"; "title=T"])).
  reflexivity.
Defined.

(** ** More on the classifier *)

Lemma events_for_app (repository branch : string) (events events' : list event) :
  events_for repository branch (events ++ events')
  = (events_for repository branch events ++ events_for repository branch events')%list.
Proof.
  unfold events_for. apply flat_map_app.
Qed.

(** X17.  The lookup of the events of a branch goes through the event list
    once and in order: on two lists put end to end it returns what it
    returns on the first followed by what it returns on the second. *)
Theorem lookup_of_concatenation (repository_name branch_name : string)
  (events events' : list event) :
  _get_dry_run_info repository_name branch_name (events ++ events')
  = (_get_dry_run_info repository_name branch_name events
     ++ _get_dry_run_info repository_name branch_name events')%list.
Proof.
  rewrite !get_dry_run_info_spec. apply events_for_app.
Qed.

Lemma events_for_foreign (repository branch : string) (events : list event) :
  Forall (foreign_event repository branch) events ->
  events_for repository branch events = [].
Proof.
  induction 1 as [|[[r b] i] events Hforeign _ IH]; [reflexivity|].
  change ((r, b, i) :: events) with ([(r, b, i)] ++ events)%list.
  rewrite events_for_app, IH, app_nil_r. unfold events_for. cbn [flat_map].
  rewrite app_nil_r.
  destruct r as [r|], b as [b|], i as [i|]; try reflexivity.
  destruct (String.eqb_spec r repository) as [-> | _]; [|reflexivity].
  destruct (String.eqb_spec b branch) as [-> | _]; [|reflexivity].
  now destruct (Hforeign i).
Qed.

(** X18.  The classification of a branch does not look at the events of
    other branches: events whose repository or branch is another one, or
    that have no info, can be added to the event list anywhere without
    changing the state or the detail, for every result code. *)
Theorem other_branches_ignored `{PyLib} (pr_result repository_name branch_name : string)
  (config : Config) (before others after : list event) :
  Forall (foreign_event repository_name branch_name) others ->
  _determine_pr_status pr_result repository_name branch_name config
    (before ++ others ++ after)
  = _determine_pr_status pr_result repository_name branch_name config (before ++ after).
Proof.
  intros Hforeign. unfold _determine_pr_status.
  rewrite !get_dry_run_info_spec, !events_for_app, (events_for_foreign _ _ _ Hforeign).
  reflexivity.
Qed.

Lemma other_branches_ignored_witness :
  @_determine_pr_status mini "done" "repo" "b1" (sample_config 2)
    ([(Some "repo", Some "b1", Some "created branch")]
     ++ [(Some "repo", Some "b2", Some "updated branch"); (Some "repo", Some "b1", None)]
     ++ [])
  = (NEW_PR, "").
Proof.
  rewrite (@other_branches_ignored mini "done" "repo" "b1" (sample_config 2)).
  - reflexivity.
  - repeat constructor; intros info; discriminate.
Defined.

(** X19.  The drilldown of the code [no-work]: no info line gives UNCHANGED
    with an empty detail; otherwise a line matching the committed-files
    pattern gives NEW, whatever else the lines match; otherwise the state
    is UNKNOWN and the detail is the info lines joined with [<br>].
    [_determine_pr_status] applies it to the info lines of the events of
    the branch. *)
Theorem no_work_drilldown_cases `{PyLib} (config : Config) (dry_run_info : list string) :
  let committed := any_match (commited_files_pattern config) dry_run_info in
  let result := _no_work_state_drilldown config dry_run_info in
  (dry_run_info = [] -> result = (UNCHANGED_PR, ""))
  /\ (committed -> result = (NEW_PR, ""))
  /\ (dry_run_info <> [] -> ~ committed ->
      result = (UNKNOWN_PR, String.concat "<br>" dry_run_info))
  /\ (forall (repository_name branch_name : string) (dry_run_infos : list event),
        dry_run_info = events_for repository_name branch_name dry_run_infos ->
        _determine_pr_status "no-work" repository_name branch_name config dry_run_infos
        = result).
Proof.
  cbv zeta. unfold _no_work_state_drilldown. split; [|split; [|split]].
  - intros ->. reflexivity.
  - intros Hc. rewrite (any_match_nonempty _ _ Hc).
    apply any_match_existsb in Hc. now rewrite Hc.
  - intros Hne Hnc. rewrite (nonempty_length _ Hne).
    now rewrite (not_any_match_existsb _ _ Hnc).
  - intros repository_name branch_name dry_run_infos ->.
    unfold _determine_pr_status. simpl. now rewrite get_dry_run_info_spec.
Qed.

Lemma no_work_drilldown_cases_witness :
  @_no_work_state_drilldown mini (sample_config 2) ["updated branch"; "committed files"]
  = (NEW_PR, "").
Proof.
  apply (@no_work_drilldown_cases mini (sample_config 2)
           ["updated branch"; "committed files"]).
  exists "committed files". split; [simpl; auto | reflexivity].
Defined.

Ltac pick_state := cbn [fst]; unfold states; simpl; tauto.

(** X20.  Whatever the result code, the events and the configuration, the
    state the classifier returns is one of the nine states. *)
Theorem state_is_one_of_nine `{PyLib} (pr_result repository_name branch_name : string)
  (config : Config) (dry_run_infos : list event) :
  In (fst (_determine_pr_status pr_result repository_name branch_name config dry_run_infos))
     states.
Proof.
  unfold _determine_pr_status, _no_work_state_drilldown, _done_state_drilldown.
  repeat match goal with
  | |- context [if ?b then _ else _] => destruct b; try pick_state
  end.
Qed.

(** X21.  For the eleven result codes whose row is a fixed text, the state
    and the detail depend on the code alone: not on the repository, the
    branch, the configuration or the events. *)
Theorem fixed_rows_ignore_events `{PyLib} (pr_result : string)
  (repository_name branch_name repository_name' branch_name' : string)
  (config config' : Config) (dry_run_infos dry_run_infos' : list event) :
  In pr_result fixed_codes ->
  _determine_pr_status pr_result repository_name branch_name config dry_run_infos
  = _determine_pr_status pr_result repository_name' branch_name' config' dry_run_infos'.
Proof.
  unfold fixed_codes. cbn [In].
  intros Hcode.
  repeat (destruct Hcode as [<- | Hcode]; [reflexivity|]).
  destruct Hcode.
Qed.

Lemma fixed_rows_ignore_events_witness :
  @_determine_pr_status mini "rebase" "repo" "b1" (sample_config 2)
    [(Some "repo", Some "b1", Some "updated branch")]
  = @_determine_pr_status mini "rebase" "other" "b2" test_config [].
Proof.
  apply (@fixed_rows_ignore_events mini "rebase").
  unfold fixed_codes. simpl. tauto.
Defined.

(** X22.  On the codes [pending], [needs-pr-approval] and [needs-approval]
    the state is PENDING and the detail is the info of all the events of the
    branch, in the order of the events, joined with [<br>]; with no such
    event the detail is empty. *)
Theorem pending_detail `{PyLib} (pr_result repository_name branch_name : string)
  (config : Config) (dry_run_infos : list event) :
  In pr_result ["pending"; "needs-pr-approval"; "needs-approval"] ->
  _determine_pr_status pr_result repository_name branch_name config dry_run_infos
  = (PENDING_PR, String.concat "<br>" (events_for repository_name branch_name dry_run_infos))
  /\ (events_for repository_name branch_name dry_run_infos = [] ->
      _determine_pr_status pr_result repository_name branch_name config dry_run_infos
      = (PENDING_PR, "")).
Proof.
  cbn [In]. intros Hcode.
  assert (Hstatus :
            _determine_pr_status pr_result repository_name branch_name config dry_run_infos
            = (PENDING_PR,
               String.concat "<br>" (events_for repository_name branch_name dry_run_infos))).
  { unfold _determine_pr_status, br_join. rewrite get_dry_run_info_spec.
    destruct Hcode as [<- | [<- | [<- | []]]]; reflexivity. }
  split; [exact Hstatus|]. intros Hnone. rewrite Hstatus, Hnone. reflexivity.
Qed.

Lemma pending_detail_witness :
  @_determine_pr_status mini "pending" "test_repo" "test_branch" (sample_config 2)
    [(Some "test_repo", Some "test_branch", Some "updated");
     (Some "test_repo", Some "test_branch", Some "someOtherInfo")]
  = (PENDING_PR, "updated<br>someOtherInfo").
Proof.
  apply (@pending_detail mini "pending"). simpl. tauto.
Defined.

(** ** More on the section decoder *)

Lemma dict_merge_head (entries : list (string * pyvalue)) :
  forall (repository : pyvalue) (rest : list (string * pyvalue)),
  exists repository' rest',
    fold_left (fun acc kv => dict_set String.eqb (fst kv) (snd kv) acc) entries
      (("repository", repository) :: rest)
    = ("repository", repository') :: rest'.
Proof.
  induction entries as [|[k v] entries IH]; intros repository rest; cbn [fold_left].
  - now exists repository, rest.
  - cbn [dict_set fst snd]. destruct (String.eqb_spec "repository" k) as [<- | _];
      apply IH.
Qed.

Lemma with_repository_first (repository value item : pyvalue) :
  with_repository repository value = Returns item -> repository_first item.
Proof.
  unfold with_repository, repository_first, dict_merge.
  destruct value; try discriminate. intros [= <-].
  destruct (dict_merge_head entries repository []) as (r & rest & ->).
  now exists r, rest.
Qed.

Lemma sections_for_items `{PyLib} (timestamp_pattern : pattern)
  (relevant_sections : list (option string * list string)) :
  forall items items' : list pyvalue,
  sections_for relevant_sections timestamp_pattern items = Returns items' ->
  Forall repository_first items ->
  List.length items' = List.length items + List.length relevant_sections
  /\ Forall repository_first items'.
Proof.
  induction relevant_sections as [|[repository lines] sections IH];
    intros items items' Hrun Hall; cbn [sections_for] in Hrun.
  - injection Hrun as <-. cbn [List.length]. split; [lia | assumption].
  - destruct (json_loads _) as [ex|value]; [discriminate|].
    destruct (with_repository _ value) as [item|] eqn:Hitem; [|discriminate].
    apply IH in Hrun.
    + rewrite length_app in Hrun. cbn [List.length] in *. split; [lia | tauto].
    + apply Forall_app. split; [assumption|].
      constructor; [|constructor]. now apply (with_repository_first _ _ _ Hitem).
Qed.

Lemma autoclosed_for_items `{PyLib}
  (autoclosed_branches : list (option string * option string)) :
  forall items items' : list pyvalue,
  autoclosed_for autoclosed_branches items = Returns items' ->
  Forall repository_first items ->
  List.length items' = List.length items + List.length autoclosed_branches
  /\ Forall repository_first items'.
Proof.
  induction autoclosed_branches as [|[repository prTitle] records IH];
    intros items items' Hrun Hall; cbn [autoclosed_for] in Hrun.
  - injection Hrun as <-. cbn [List.length]. split; [lia | assumption].
  - destruct (json_loads _) as [ex|value]; [discriminate|].
    destruct (with_repository _ value) as [item|] eqn:Hitem; [|discriminate].
    apply IH in Hrun.
    + rewrite length_app in Hrun. cbn [List.length] in *. split; [lia | tauto].
    + apply Forall_app. split; [assumption|].
      constructor; [|constructor]. now apply (with_repository_first _ _ _ Hitem).
Qed.

(** X23.  What the decoder returns is an object with the one key [items];
    the list under it has one document for each section of the mapping and
    one for each autoclosed record, and every document is an object whose
    first key is [repository]. *)
Theorem decoder_items `{PyLib}
  (relevant_sections : list (option string * list string))
  (autoclosed_branches : list (option string * option string))
  (timestamp_pattern : pattern) (document : pyvalue) :
  _process_branches_lists relevant_sections autoclosed_branches timestamp_pattern
  = Returns document ->
  exists items : list pyvalue,
    document = PyDict [("items", PyList items)]
    /\ List.length items
       = List.length relevant_sections + List.length autoclosed_branches
    /\ Forall repository_first items.
Proof.
  unfold _process_branches_lists.
  destruct (sections_for _ _ []) as [items|] eqn:Hsections; [|discriminate].
  destruct (autoclosed_for _ items) as [items'|] eqn:Hrecords; [|discriminate].
  intros [= <-]. exists items'. split; [reflexivity|].
  destruct (sections_for_items _ _ _ _ Hsections (Forall_nil _)) as [Hlen Hall].
  destruct (autoclosed_for_items _ _ _ Hrecords Hall) as [Hlen' Hall'].
  cbn [List.length] in Hlen. split; [lia | assumption].
Qed.

Lemma decoder_items_witness :
  exists items : list pyvalue,
    PyDict [("items", PyList [autoclosed_document "R" "T"; autoclosed_document "N/A" "N/A"])]
    = PyDict [("items", PyList items)]
    /\ List.length items
       = List.length (@nil (option string * list string))
         + List.length [(Some "R", Some "T"); (@None string, @None string)]
    /\ Forall repository_first items.
Proof.
  apply (@decoder_items mini [] [(Some "R", Some "T"); (None, None)] (RLit "TS ")).
  reflexivity.
Defined.

Lemma sections_for_app `{PyLib} (timestamp_pattern : pattern)
  (before : list (option string * list string))
  (decoded : list (list (string * pyvalue)))
  (rest : list (option string * list string)) :
  Forall2 (decodes_to timestamp_pattern) before decoded ->
  forall items : list pyvalue,
  sections_for (before ++ rest) timestamp_pattern items
  = sections_for rest timestamp_pattern
      (items ++ map (fun sd => section_document (fst sd) (snd sd))
                    (combine before decoded)).
Proof.
  induction 1 as [|[repository lines] entries sections decoded Hdec _ IH];
    intros items; cbn [app sections_for combine map].
  - now rewrite app_nil_r.
  - unfold decodes_to in Hdec. cbn [snd] in Hdec. rewrite Hdec.
    cbn [with_repository]. rewrite IH, <- app_assoc. reflexivity.
Qed.

(** X24.  The first section whose body does not decode ends the decoder:
    it raises a [JSONDecodeError] whose message is [Failed to parse JSON: ]
    followed by the text of the parser's error, whatever the later sections
    and the autoclosed records are; no document is returned. *)
Theorem first_bad_section_fails `{PyLib} (timestamp_pattern : pattern)
  (before : list (option string * list string))
  (decoded : list (list (string * pyvalue)))
  (repository : option string) (lines : list string) (ex : string)
  (later : list (option string * list string))
  (autoclosed_branches : list (option string * option string)) :
  Forall2 (decodes_to timestamp_pattern) before decoded ->
  json_loads (section_json timestamp_pattern lines) = inl ex ->
  _process_branches_lists (before ++ (repository, lines) :: later) autoclosed_branches
    timestamp_pattern
  = Raises (JSONDecodeError ("Failed to parse JSON: " ++ ex)).
Proof.
  intros Hbefore Hbad. unfold _process_branches_lists.
  rewrite (sections_for_app _ _ _ _ Hbefore). cbn [sections_for].
  now rewrite Hbad.
Qed.

Lemma first_bad_section_fails_witness :
  @_process_branches_lists mini
    ([(Some "A", ["TS " ++ quoted "branchesInformation" ++ ": []"])]
     ++ (Some "B", ["TS " ++ quoted "branchesInformation" ++ ": ["]) :: [(Some "C", [])])
    [(Some "R", Some "T")] (RLit "TS ")
  = Raises (JSONDecodeError ("Failed to parse JSON: " ++ "Expecting value")).
Proof.
  apply (@first_bad_section_fails mini (RLit "TS ") _ [[("branchesInformation", PyList [])]]).
  - constructor; [reflexivity | constructor].
  - reflexivity.
Defined.

Lemma with_repository_error (repository value : pyvalue) (e : exn) :
  with_repository repository value = Raises e -> exists msg, e = TypeError msg.
Proof.
  unfold with_repository. destruct value; intros [= <-]; eexists; reflexivity.
Qed.

Lemma sections_for_error `{PyLib} (timestamp_pattern : pattern)
  (relevant_sections : list (option string * list string)) :
  forall (items : list pyvalue) (e : exn),
  sections_for relevant_sections timestamp_pattern items = Raises e ->
  (exists msg, e = JSONDecodeError ("Failed to parse JSON: " ++ msg))
  \/ exists msg, e = TypeError msg.
Proof.
  induction relevant_sections as [|[repository lines] sections IH];
    intros items e Hrun; cbn [sections_for] in Hrun; [discriminate|].
  destruct (json_loads _) as [ex|value]; [injection Hrun as <-; left; now exists ex|].
  destruct (with_repository _ value) as [item|e'] eqn:Hitem; [now apply (IH _ _ Hrun)|].
  injection Hrun as <-. right. now apply (with_repository_error _ _ _ Hitem).
Qed.

Lemma autoclosed_for_error `{PyLib}
  (autoclosed_branches : list (option string * option string)) :
  forall (items : list pyvalue) (e : exn),
  autoclosed_for autoclosed_branches items = Raises e ->
  (exists msg, e = JSONDecodeError msg) \/ exists msg, e = TypeError msg.
Proof.
  induction autoclosed_branches as [|[repository prTitle] records IH];
    intros items e Hrun; cbn [autoclosed_for] in Hrun; [discriminate|].
  destruct (json_loads _) as [ex|value]; [injection Hrun as <-; left; now exists ex|].
  destruct (with_repository _ value) as [item|e'] eqn:Hitem; [now apply (IH _ _ Hrun)|].
  injection Hrun as <-. right. now apply (with_repository_error _ _ _ Hitem).
Qed.

(** X25.  The decoder raises nothing but a [JSONDecodeError], for a body or
    a record text that does not decode, or a [TypeError], for a text that
    decodes to something that is no object. *)
Theorem decoder_errors `{PyLib}
  (relevant_sections : list (option string * list string))
  (autoclosed_branches : list (option string * option string))
  (timestamp_pattern : pattern) (e : exn) :
  _process_branches_lists relevant_sections autoclosed_branches timestamp_pattern
  = Raises e ->
  (exists msg, e = JSONDecodeError msg) \/ exists msg, e = TypeError msg.
Proof.
  unfold _process_branches_lists.
  destruct (sections_for _ _ []) as [items|e'] eqn:Hsections.
  - destruct (autoclosed_for _ items) as [items'|e'] eqn:Hrecords; [discriminate|].
    intros [= <-]. now apply (autoclosed_for_error _ _ _ Hrecords).
  - intros [= <-].
    destruct (sections_for_error _ _ _ _ Hsections) as [[msg ->] | Htype];
      [left; eexists; reflexivity | now right].
Qed.

Lemma decoder_errors_witness :
  (exists msg, JSONDecodeError "Expecting value" = JSONDecodeError msg)
  \/ exists msg, JSONDecodeError "Expecting value" = TypeError msg.
Proof.
  apply (@decoder_errors mini [] [(Some "R", Some ("a" ++ dquote ++ "b"))] (RLit "TS ")).
  reflexivity.
Defined.

Lemma dict_set_fresh {V : Type} (k : string) (v : V) (d : list (string * V)) :
  ~ In k (map fst d) -> dict_set String.eqb k v d = (d ++ [(k, v)])%list.
Proof.
  induction d as [|[k' v'] d IH]; cbn [dict_set map fst In app]; intros Hfresh;
    [reflexivity|].
  destruct (String.eqb_spec k' k) as [-> | _]; [tauto|].
  rewrite IH; [reflexivity | tauto].
Qed.

Lemma merge_fresh {V : Type} (entries : list (string * V)) :
  forall base : list (string * V),
  NoDup (map fst (base ++ entries)) ->
  fold_left (fun acc kv => dict_set String.eqb (fst kv) (snd kv) acc) entries base
  = (base ++ entries)%list.
Proof.
  induction entries as [|[k v] entries IH]; intros base Hnodup; cbn [fold_left fst snd].
  - now rewrite app_nil_r.
  - rewrite dict_set_fresh.
    + rewrite IH; rewrite <- app_assoc; [reflexivity | exact Hnodup].
    + rewrite map_app in Hnodup. cbn [map fst] in Hnodup.
      apply NoDup_remove_2 in Hnodup. intros Hin. apply Hnodup.
      apply in_or_app. now left.
Qed.

Lemma merge_keeps_head {V : Type} (k0 : string) (v0 : V) (entries : list (string * V)) :
  ~ In k0 (map fst entries) ->
  forall rest : list (string * V),
  fold_left (fun acc kv => dict_set String.eqb (fst kv) (snd kv) acc) entries
    ((k0, v0) :: rest)
  = (k0, v0)
    :: fold_left (fun acc kv => dict_set String.eqb (fst kv) (snd kv) acc) entries rest.
Proof.
  induction entries as [|[k v] entries IH]; intros Hfresh rest;
    cbn [fold_left fst snd]; [reflexivity|].
  cbn [map fst In] in Hfresh. cbn [dict_set].
  destruct (String.eqb_spec k0 k) as [-> | _]; [tauto|].
  apply IH. tauto.
Qed.

(** X26.  The document of a section is its decoded body with the entry
    [repository] put in front.  When the body has no key [repository] the
    entry is the repository of the section; when the body has one, its
    value takes the place of the repository of the section. *)
Theorem section_document_entries (section : option string * list string)
  (entries : list (string * pyvalue)) :
  NoDup (map fst entries) ->
  (~ In "repository" (map fst entries) ->
   with_repository (py_of_option (fst section)) (PyDict entries)
   = Returns (PyDict (("repository", py_of_option (fst section)) :: entries)))
  /\ (forall value : pyvalue,
        In ("repository", value) entries ->
        exists rest,
          with_repository (py_of_option (fst section)) (PyDict entries)
          = Returns (PyDict (("repository", value) :: rest))).
Proof.
  intros Hnodup. unfold with_repository, dict_merge. split.
  - intros Hfresh. rewrite merge_fresh; [reflexivity|].
    cbn [app map fst]. now constructor.
  - intros value Hin. apply in_split in Hin. destruct Hin as (before & after & ->).
    rewrite map_app in Hnodup. cbn [map fst] in Hnodup.
    pose proof (NoDup_remove_2 _ _ _ Hnodup) as Hfresh.
    rewrite fold_left_app. cbn [fold_left fst snd].
    rewrite merge_keeps_head by (intros Hin; apply Hfresh; apply in_or_app; now left).
    cbn [dict_set]. rewrite String.eqb_refl.
    rewrite merge_keeps_head by (intros Hin; apply Hfresh; apply in_or_app; now right).
    eexists. reflexivity.
Qed.

Lemma section_document_entries_witness :
  with_repository (py_of_option (fst (Some "A", ["x"])))
    (PyDict [("branchesInformation", PyList [])])
  = Returns (PyDict [("repository", PyStr "A"); ("branchesInformation", PyList [])]).
Proof.
  apply (section_document_entries (Some "A", ["x"]) [("branchesInformation", PyList [])]).
  - repeat constructor. intros [].
  - intros [Heq | []]. discriminate Heq.
Defined.

(** ** The stages together *)

(** X27.  On a log that has no line, or whose first line holds white space
    only, the run fails with the error of an empty log: the event index and
    the autoclosed extractor, which come first, both pass such a log
    without an error. *)
Theorem empty_log_fails_run `{PyLib} (config : Config) (file : list string) (fuel : nat) :
  visible file = [] ->
  _extract_general_dry_run_infos file config = Returns []
  /\ _extract_and_process_autoclosed_dry_run_infos (S fuel) file config
     = Some (Returns [])
  /\ execute_stages (S fuel) file config = Some (Raises EmptyLogError).
Proof.
  intros Hempty.
  assert (Hevents : _extract_general_dry_run_infos file config = Returns []).
  { unfold _extract_general_dry_run_infos. rewrite general_while_events.
    - now rewrite Hempty.
    - rewrite Hempty. constructor. }
  assert (Hrecords : _extract_and_process_autoclosed_dry_run_infos (S fuel) file config
                     = Some (Returns [])).
  { unfold _extract_and_process_autoclosed_dry_run_infos.
    apply visible_nil_first in Hempty.
    destruct (_get_next_line file) as [line file']. now apply autoclosed_stop. }
  assert (Hsections : _find_branches_lists file config = Raises EmptyLogError).
  { unfold _find_branches_lists. apply visible_nil_first in Hempty.
    destruct (_get_next_line file) as [line file']. cbn [fst] in Hempty.
    now rewrite Hempty. }
  repeat split; try assumption.
  unfold execute_stages. now rewrite Hevents, Hrecords, Hsections.
Qed.

Lemma empty_log_fails_run_witness :
  @execute_stages mini 1 [newline; "START repo: A"; "END"] (sample_config 2)
  = Some (Raises EmptyLogError).
Proof.
  apply (@empty_log_fails_run mini (sample_config 2) [newline; "START repo: A"; "END"] 0).
  reflexivity.
Defined.
